(** * librespeed-go: the metrics pipeline of [main.go]

    A shallow embedding of the exporter's core: the result parser
    ([runLibrespeed]), the time-series builder ([createTimeSeries] and the
    batch built in [main]), the single delivery attempt ([sendToRemoteWrite])
    and the retry wrapper ([sendToRemoteWriteWithRetry], [retryDelayFunc]).

    Conventions.
    - Go [int] and [int64] are 64-bit two's-complement integers, carried
      as [Z] with the wrap-around written out ([Go.wrap64]).
    - Go [float64] is the kernel's binary64 [float].
    - Go [string] and [[]byte] are [string] (a list of 8-bit characters).
    - An [error] is [option string]: [None] is [nil], [Some m] an error
      whose [Error()] text is [m].
    - Code of other packages (encoding/json, prompb's Marshal, snappy,
      net/url, net/http's transport, math/rand's generator, the command
      runner) is taken as the fields of an environment record [Env].
    - Effects are threaded through a [World]: the HTTP requests handed to
      the client, the sleeps taken, the number of random draws, the log. *)

From Stdlib Require Import ZArith List String Ascii Bool Lia PrimFloat DecimalString.
Import ListNotations.

Local Open Scope string_scope.
Local Open Scope Z_scope.

(* ===================================================================== *)
(** ** Go's built-ins used by the program *)
(* ===================================================================== *)

Module Go.

(** [error]: nil or a message. *)
Definition error := option string.

(** [%v] of an error value inside [fmt.Errorf] / [log.Printf]. *)
Definition verb_v (e : error) : string :=
  match e with
  | Some m => m
  | None => "<nil>"
  end.

(** [%d] of an integer. *)
Definition verb_d (z : Z) : string := NilZero.string_of_int (Z.to_int z).

(** [len] of a string / byte slice. *)
Definition len (s : string) : Z := Z.of_nat (String.length s).

(** [strings.Contains(s, substr)]. *)
Fixpoint Contains (s substr : string) : bool :=
  String.prefix substr s ||
  match s with
  | EmptyString => false
  | String _ s' => Contains s' substr
  end.

(** Two's-complement wrap-around of a 64-bit signed integer. *)
Definition wrap64 (z : Z) : Z := (z + 2 ^ 63) mod 2 ^ 64 - 2 ^ 63.

(** [x << s] on [int]: a negative count panics ([None]); the result is
    truncated to 64 bits, so counts of 64 and more give 0. *)
Definition shl (x s : Z) : option Z :=
  if s <? 0 then None else Some (wrap64 (Z.shiftl x s)).

(** [rand.Intn(n)]: panics when [n <= 0], otherwise some value of [[0, n)];
    [raw] is the generator's draw, and every value of [[0, n)] is the image
    of some draw. *)
Definition Intn (raw n : Z) : option Z :=
  if n <=? 0 then None else Some (raw mod n).

(** [time.Second] as a [time.Duration] (nanoseconds). *)
Definition Second : Z := 1000000000.

End Go.

(* ===================================================================== *)
(** ** Data model *)
(* ===================================================================== *)

(** The [prompb] message types the program builds. *)
Module prompb.

Record Label := { Name : string; Value : string }.

Record Sample := { SValue : float; Timestamp : Z }.

Record TimeSeries := { Labels : list Label; Samples : list Sample }.

Record WriteRequest := { Timeseries : list TimeSeries }.

End prompb.

Record ServerInfo := { ID : Z; URL : string }.

Record LibrespeedResult := {
  Download : float;
  Upload : float;
  Ping : float;
  Jitter : float;
  Server : ServerInfo
}.

(** An [*http.Request] as the program configures it, together with the
    two timeouts that bound it (the request context's and the client's). *)
Record HttpRequest := {
  Method : string;
  Target : string;
  Body : string;
  Header : list (string * string);
  BasicAuth : option (string * string);
  ctxTimeout : Z;
  clientTimeout : Z
}.

Record HttpResponse := {
  StatusCode : Z;
  Status : string;
  RespBody : string
}.

(** What [log.Printf] / [log.Println] were called with, one constructor per
    call site; wall-clock durations are left out. *)
Inductive LogLine :=
| LogRunningCli
| LogRunningCommand (cliPath : string) (args : list string)
| LogCliFailed (err : string)
| LogCliCompleted
| LogRawOutput (output : string)
| LogParseFailed (err : string)
| LogNoResults
| LogSpeedResults (download upload ping jitter : float)
| LogPreparing (n : Z)
| LogSendingMetric (name server instance : string) (value : float) (ts : Z)
| LogPayloadSize (raw compressed : Z)
| LogRequestFailed (err : string)
| LogReceivedResponse (status : string)
| LogRemoteWriteFailed (body : string)
| LogMetricsSent
| LogRetrying (delay attempt total : Z)
| LogSuccessAfterRetries (retries : Z)
| LogAttemptFailed (attempt : Z) (err : string)
| LogNonRetryable (err : string).

(** The code of other packages and the outside world. *)
Record Env := {
  (** [runner.Run(name, args...)]: captured output and error. *)
  Run : string -> list string -> string * Go.error;
  (** [json.Unmarshal(output, &results)]: the decoded slice, or the error. *)
  json_Unmarshal : string -> list LibrespeedResult + string;
  (** [req.Marshal()]. *)
  Marshal : prompb.WriteRequest -> string + string;
  (** [snappy.Encode(nil, data)]. *)
  snappy_Encode : string -> string;
  (** the URL check of [http.NewRequestWithContext]: the error, if any. *)
  url_Parse : string -> Go.error;
  (** [client.Do]: what the [k]-th round trip answers to a request:
      a response, or a transport error. *)
  client_Do : nat -> HttpRequest -> HttpResponse + string;
  (** the [k]-th draw of the random generator. *)
  rand_raw : nat -> Z
}.

(** The observable effects so far; lists are newest first. *)
Record World := {
  requests : list HttpRequest;
  sleeps : list Z;
  draws : nat;
  log : list LogLine;
  (** ghost: how many times [sendToRemoteWrite] was entered. *)
  calls : nat
}.

Definition World0 : World :=
  {| requests := []; sleeps := []; draws := 0; log := []; calls := 0 |}.

(** A computation returns a value or panics, and leaves a world. *)
Inductive Res (A : Type) :=
| Val (a : A)
| Panic (msg : string).
Arguments Val {A} a.
Arguments Panic {A} msg.

Definition M (A : Type) : Type := World -> Res A * World.

Definition ret {A} (a : A) : M A := fun w => (Val a, w).

Definition bind {A B} (m : M A) (k : A -> M B) : M B :=
  fun w =>
    match m w with
    | (Val a, w') => k a w'
    | (Panic msg, w') => (Panic msg, w')
    end.

Definition panic {A} (msg : string) : M A := fun w => (Panic msg, w).

Declare Scope go_scope.
Delimit Scope go_scope with go.
Notation "x <- m ;; k" := (bind m (fun x => k))
  (at level 100, m at next level, right associativity) : go_scope.
Notation "m ;; k" := (bind m (fun _ => k))
  (at level 100, right associativity) : go_scope.
Local Open Scope go_scope.

Definition logf (l : LogLine) : M unit :=
  fun w => (Val tt,
            {| requests := requests w; sleeps := sleeps w; draws := draws w;
               log := l :: log w; calls := calls w |}).

Definition time_Sleep (d : Z) : M unit :=
  fun w => (Val tt,
            {| requests := requests w; sleeps := d :: sleeps w; draws := draws w;
               log := log w; calls := calls w |}).

(** Ghost step at the entry of [sendToRemoteWrite]. *)
Definition enter : M unit :=
  fun w => (Val tt,
            {| requests := requests w; sleeps := sleeps w; draws := draws w;
               log := log w; calls := S (calls w) |}).

(* ===================================================================== *)
(** ** The program *)
(* ===================================================================== *)

(** [createTimeSeries], main.go:204. *)
Definition createTimeSeries (metric : string) (value : float) (ts : Z)
    (serverURL instance : string) : prompb.TimeSeries :=
  {| prompb.Labels :=
       [ {| prompb.Name := "__name__"; prompb.Value := metric |};
         {| prompb.Name := "server_url"; prompb.Value := serverURL |};
         {| prompb.Name := "instance"; prompb.Value := instance |} ];
     prompb.Samples :=
       [ {| prompb.SValue := value; prompb.Timestamp := ts |} ] |}.

(** [getLabelValue], main.go:217. *)
Fixpoint getLabelValue (labels : list prompb.Label) (name : string) : string :=
  match labels with
  | [] => ""
  | label :: rest =>
      if String.eqb (prompb.Name label) name then prompb.Value label
      else getLabelValue rest name
  end.

(** The batch [main] builds from the parsed result, main.go:440-445. *)
Definition buildSeries (result : LibrespeedResult) (now : Z) (hostname : string)
    : list prompb.TimeSeries :=
  [ createTimeSeries "librespeed_download_mbps" (Download result) now (URL (Server result)) hostname;
    createTimeSeries "librespeed_upload_mbps" (Upload result) now (URL (Server result)) hostname;
    createTimeSeries "librespeed_ping_ms" (Ping result) now (URL (Server result)) hostname;
    createTimeSeries "librespeed_jitter_ms" (Jitter result) now (URL (Server result)) hostname ].

(** [runLibrespeed], main.go:163.  [serverID] is a [*int]: [None] is nil.
    The result is the pair the function returns: [(nil, err)] or
    [(result, nil)]. *)
Definition runLibrespeed (E : Env) (cliPath localJSONPath : string)
    (serverID : option Z) : M (option LibrespeedResult * Go.error) :=
  logf LogRunningCli ;;
  let args := ["--telemetry-level"; "basic"; "--json"; "--verbose"] in
  let args :=
    match serverID with
    | Some id =>
        if negb (String.eqb localJSONPath "")
        then (args ++ ["--local-json"; localJSONPath; "--server"; Go.verb_d id])%list
        else args
    | None =>
        if negb (String.eqb localJSONPath "")
        then (args ++ ["--local-json"; localJSONPath])%list
        else args
    end in
  logf (LogRunningCommand cliPath args) ;;
  let (output, err) := Run E cliPath args in
  match err with
  | Some e =>
      logf (LogCliFailed e) ;;
      ret (None, Some ("failed to run librespeed-cli: " ++ e))
  | None =>
      logf LogCliCompleted ;;
      logf (LogRawOutput output) ;;
      match json_Unmarshal E output with
      | inr e =>
          logf (LogParseFailed e) ;;
          ret (None, Some ("failed to parse JSON: " ++ e))
      | inl results =>
          match results with
          | [] =>
              logf LogNoResults ;;
              ret (None, Some "no results returned from librespeed-cli")
          | result :: _ =>
              logf (LogSpeedResults (Download result) (Upload result)
                                    (Ping result) (Jitter result)) ;;
              ret (Some result, None)
          end
      end
  end.

(** The [for _, ts := range series] loop of [sendToRemoteWrite],
    main.go:234-243.  The elements of [series] are pointers; they are taken
    to be non-nil, as [createTimeSeries] returns them.  [ts.Samples[0]] is
    evaluated for the log line's arguments, and panics on an empty slice. *)
Fixpoint rangeSeries (series tsList : list prompb.TimeSeries)
    : M (list prompb.TimeSeries) :=
  match series with
  | [] => ret tsList
  | ts :: rest =>
      match prompb.Samples ts with
      | [] => panic "runtime error: index out of range [0] with length 0"
      | s0 :: _ =>
          logf (LogSendingMetric
                  (getLabelValue (prompb.Labels ts) "__name__")
                  (getLabelValue (prompb.Labels ts) "server_url")
                  (getLabelValue (prompb.Labels ts) "instance")
                  (prompb.SValue s0) (prompb.Timestamp s0)) ;;
          rangeSeries rest (tsList ++ [ts])%list
      end
  end.

(** [httpReq.Header.Set(key, value)]: the keys the program sets are already
    in canonical form. *)
Definition Header_Set (r : HttpRequest) (key value : string) : HttpRequest :=
  {| Method := Method r; Target := Target r; Body := Body r;
     Header := (filter (fun kv => negb (String.eqb (fst kv) key)) (Header r)
                ++ [(key, value)])%list;
     BasicAuth := BasicAuth r;
     ctxTimeout := ctxTimeout r; clientTimeout := clientTimeout r |}.

Definition Header_Get (r : HttpRequest) (key : string) : option string :=
  match find (fun kv => String.eqb (fst kv) key) (Header r) with
  | Some kv => Some (snd kv)
  | None => None
  end.

(** [httpReq.SetBasicAuth(username, password)]: the credentials are kept
    as given (the Authorization header's base64 text is not spelled out). *)
Definition SetBasicAuth (r : HttpRequest) (username password : string) : HttpRequest :=
  {| Method := Method r; Target := Target r; Body := Body r;
     Header := Header r;
     BasicAuth := Some (username, password);
     ctxTimeout := ctxTimeout r; clientTimeout := clientTimeout r |}.

(** [http.NewRequestWithContext(ctx, method, url, body)] with a context
    that times out after [timeout]. *)
Definition NewRequestWithContext (E : Env) (timeout : Z) (method url body : string)
    : HttpRequest + string :=
  match url_Parse E url with
  | Some e => inr e
  | None =>
      inl {| Method := method; Target := url; Body := body; Header := [];
             BasicAuth := None; ctxTimeout := timeout; clientTimeout := 0 |}
  end.

(** [client.Do(httpReq)] on a client whose [Timeout] is [timeout]. *)
Definition Do (E : Env) (timeout : Z) (r : HttpRequest) : M (HttpResponse + string) :=
  fun w =>
    let r' := {| Method := Method r; Target := Target r; Body := Body r;
                 Header := Header r; BasicAuth := BasicAuth r;
                 ctxTimeout := ctxTimeout r; clientTimeout := timeout |} in
    (Val (client_Do E (List.length (requests w)) r'),
     {| requests := r' :: requests w; sleeps := sleeps w; draws := draws w;
        log := log w; calls := calls w |}).

(** [sendToRemoteWrite], main.go:226. *)
Definition sendToRemoteWrite (E : Env) (url username password : string)
    (series : list prompb.TimeSeries) : M Go.error :=
  enter ;;
  if Z.of_nat (List.length series) =? 0 then
    ret (Some "no time series data to send")
  else
    logf (LogPreparing (Z.of_nat (List.length series))) ;;
    tsList <- rangeSeries series [] ;;
    let req := {| prompb.Timeseries := tsList |} in
    match Marshal E req with
    | inr e => ret (Some ("failed to marshal protobuf: " ++ e))
    | inl data =>
        let compressed := snappy_Encode E data in
        logf (LogPayloadSize (Go.len data) (Go.len compressed)) ;;
        match NewRequestWithContext E (30 * Go.Second) "POST" url compressed with
        | inr e => ret (Some ("failed to create HTTP request: " ++ e))
        | inl httpReq =>
            let httpReq := Header_Set httpReq "Content-Encoding" "snappy" in
            let httpReq := Header_Set httpReq "Content-Type" "application/x-protobuf" in
            let httpReq := Header_Set httpReq "X-Prometheus-Remote-Write-Version" "0.1.0" in
            let httpReq := SetBasicAuth httpReq username password in
            r <- Do E (30 * Go.Second) httpReq ;;
            match r with
            | inr e =>
                logf (LogRequestFailed e) ;;
                ret (Some ("failed to send HTTP request: " ++ e))
            | inl resp =>
                logf (LogReceivedResponse (Status resp)) ;;
                if StatusCode resp >=? 300 then
                  logf (LogRemoteWriteFailed (RespBody resp)) ;;
                  ret (Some ("remote_write failed: " ++ Status resp ++ " - " ++ RespBody resp))
                else
                  logf LogMetricsSent ;;
                  ret None
            end
        end
    end.

(** [rand.Intn(n)] on the world's generator. *)
Definition rand_Intn (E : Env) (n : Z) : M Z :=
  fun w =>
    match Go.Intn (rand_raw E (draws w)) n with
    | None => (Panic "invalid argument to Intn", w)
    | Some v =>
        (Val v,
         {| requests := requests w; sleeps := sleeps w; draws := S (draws w);
            log := log w; calls := calls w |})
    end.

(** A shift of the program, panicking on a negative count. *)
Definition shift (x s : Z) : M Z :=
  match Go.shl x s with
  | None => panic "runtime error: negative shift amount"
  | Some v => ret v
  end.

(** [retryDelayFunc], main.go:295: the delay as a [time.Duration]. *)
Definition retryDelayFunc (E : Env) (attempt : Z) : M Z :=
  base <- shift 1 (Go.wrap64 (attempt - 1)) ;;
  bound <- shift 1 (Go.wrap64 (attempt - 1)) ;;
  jitter <- rand_Intn E bound ;;
  let backoffSeconds := Go.wrap64 (base + jitter) in
  let backoffSeconds := if backoffSeconds >? 30 then 30 else backoffSeconds in
  ret (Go.wrap64 (backoffSeconds * Go.Second)).

(** The test of main.go:325-326. *)
Definition nonRetryable (msg : string) : bool :=
  Go.Contains msg "401" || Go.Contains msg "403" ||
  Go.Contains msg "400" || Go.Contains msg "404".

(** How the retry loop is left: by [return nil], or by falling out of it
    (condition false, or [break]) with [lastErr]. *)
Inductive LoopExit :=
| ReturnNil
| Done (lastErr : Go.error).

(** The loop [for attempt := 0; attempt <= maxRetries; attempt++],
    main.go:306-330, started at [attempt] with [remaining] iterations to go
    before the condition fails.  ([attempt++] never wraps: an iteration
    with [attempt = 64] panics in [retryDelayFunc].) *)
Fixpoint retryLoop (E : Env) (url username password : string)
    (series : list prompb.TimeSeries) (maxRetries : Z)
    (remaining : nat) (attempt : Z) (lastErr : Go.error) : M LoopExit :=
  match remaining with
  | O => ret (Done lastErr)
  | S remaining' =>
      (if attempt >? 0 then
         delay <- retryDelayFunc E attempt ;;
         logf (LogRetrying delay (attempt + 1) (Go.wrap64 (maxRetries + 1))) ;;
         time_Sleep delay
       else ret tt) ;;
      err <- sendToRemoteWrite E url username password series ;;
      match err with
      | None =>
          (if attempt >? 0 then logf (LogSuccessAfterRetries attempt) else ret tt) ;;
          ret ReturnNil
      | Some m =>
          logf (LogAttemptFailed (attempt + 1) m) ;;
          if nonRetryable m then
            logf (LogNonRetryable m) ;;
            ret (Done (Some m))
          else
            retryLoop E url username password series maxRetries
                      remaining' (attempt + 1) (Some m)
      end
  end.

(** [sendToRemoteWriteWithRetry], main.go:303. *)
Definition sendToRemoteWriteWithRetry (E : Env) (url username password : string)
    (series : list prompb.TimeSeries) (maxRetries : Z) : M Go.error :=
  exit <- retryLoop E url username password series maxRetries
                    (Z.to_nat (maxRetries + 1)) 0 None ;;
  match exit with
  | ReturnNil => ret None
  | Done lastErr =>
      ret (Some ("failed after " ++ Go.verb_d (Go.wrap64 (maxRetries + 1))
                 ++ " attempts, last error: " ++ Go.verb_v lastErr))
  end.

(* ===================================================================== *)
(** ** Test doubles, after main_test.go *)
(* ===================================================================== *)

Module Mock.

#[local] Set Warnings "-inexact-float".

(** An [httptest] server that answers every request with one status line
    and body. *)
Definition server (code : Z) (status body : string)
    : nat -> HttpRequest -> HttpResponse + string :=
  fun _ _ => inl {| StatusCode := code; Status := status; RespBody := body |}.

(** A [MockRunner] with fixed [Output] and [Err]. *)
Definition runner (output : string) (err : Go.error)
    : string -> list string -> string * Go.error :=
  fun _ _ => (output, err).

(** The result of Scenario A, and a second one. *)
Definition resultA : LibrespeedResult :=
  {| Download := 100.5; Upload := 50.2; Ping := 10.1; Jitter := 1.2;
     Server := {| ID := 0; URL := "http://example.com" |} |}.

Definition resultB : LibrespeedResult :=
  {| Download := 7; Upload := 3; Ping := 40; Jitter := 9;
     Server := {| ID := 2; URL := "http://other.example" |} |}.

(** A decoder that knows three inputs: an array of two results, the empty
    array, and text that is not JSON. *)
Definition unmarshal (output : string) : list LibrespeedResult + string :=
  if String.eqb output "[A,B]" then inl [resultA; resultB]
  else if String.eqb output "[]" then inl []
  else inr "invalid character 'i' looking for beginning of value".

(** A stand-in serializer: one byte per series. *)
Definition marshal (req : prompb.WriteRequest) : string + string :=
  inl (String.concat "" (map (fun _ => "s") (prompb.Timeseries req))).

(** A serializer that always fails. *)
Definition marshalFails (req : prompb.WriteRequest) : string + string :=
  inr "proto: size mismatch".

Definition env (output : string) (err : Go.error)
    (srv : nat -> HttpRequest -> HttpResponse + string) : Env :=
  {| Run := runner output err;
     json_Unmarshal := unmarshal;
     Marshal := marshal;
     snappy_Encode := fun data => data;
     url_Parse := fun _ => None;
     client_Do := srv;
     rand_raw := fun k => Z.of_nat k |}.

Definition envMarshalFails : Env :=
  {| Run := runner "" None;
     json_Unmarshal := unmarshal;
     Marshal := marshalFails;
     snappy_Encode := fun data => data;
     url_Parse := fun _ => None;
     client_Do := server 200 "200 OK" "";
     rand_raw := fun k => Z.of_nat k |}.

(** The servers of the scenarios. *)
Definition env200 : Env := env "[A,B]" None (server 200 "200 OK" "").
Definition env403 : Env := env "[A,B]" None (server 403 "403 Forbidden" "Forbidden").
Definition env500 : Env :=
  env "[A,B]" None (server 500 "500 Internal Server Error" "Internal server error with details").
Definition env101 : Env := env "[A,B]" None (server 101 "101 Switching Protocols" "").

(** One series, as the tests send it. *)
Definition oneSeries : list prompb.TimeSeries :=
  [createTimeSeries "test_metric" 1 1690000000000 "server" "instance"].

(** A series without a sample. *)
Definition noSample : prompb.TimeSeries :=
  {| prompb.Labels := [ {| prompb.Name := "__name__"; prompb.Value := "m" |} ];
     prompb.Samples := [] |}.

End Mock.

(* ===================================================================== *)
(** ** The program around the pipeline *)
(* ===================================================================== *)

(** What [os.Stat] gives: file information, or an error that
    [os.IsNotExist] recognizes or not.  On an error the returned
    [FileInfo] is nil. *)
Inductive StatResult :=
| StatInfo (isDir : bool)
| StatError (notExist : bool).

(** The fields of a parsed [*url.URL] that the program reads. *)
Record ParsedURL := { Scheme : string; UHost : string }.

(** A file of a ZIP archive: its name, and what [f.Open] and reading it
    give (the content, or the error). *)
Record ZipFile := { ZName : string; ZOpen : string + string }.

(** The values of the command-line flags of [main], one field per flag. *)
Record Flags := {
  flag_logfile : string;
  flag_url : string;
  flag_username : string;
  flag_password : string;
  flag_local_json : string;
  flag_server_id : Z
}.

(** How [flag.Parse()] ends.  It works on the default flag set, whose
    policy is [flag.ExitOnError]: either every flag of the command line
    was set and the call returns; or the command line asked for [-h] or
    [-help], the usage was printed to standard error and the program
    ended with status 0; or the command line was malformed (a flag that
    is not declared, a missing value, a value that does not read as an
    integer), the error and the usage were printed to standard error and
    the program ended with status 2. *)
Inductive Parsed :=
| FlagsSet (f : Flags)
| HelpRequested (usage : string)
| BadFlag (report : string).

(** The operating system and the packages used around the pipeline.  A
    run asks each of them at most once per path, so the answers are taken
    per path. *)
Record Host := {
  (** [flag.Parse()]: from the declared flags with their default values
      and the command line [os.Args[1:]]. *)
  flag_Parse : Flags -> list string -> Parsed;
  filepath_Dir : string -> string;
  filepath_Join : string -> string -> string;
  os_Stat : string -> StatResult;
  (** [url.Parse]. *)
  url_ParseURL : string -> ParsedURL + string;
  (** [exec.LookPath]: the path, or the error. *)
  exec_LookPath : string -> string + string;
  (** [cmd.Run()] of [exec.Command(name, args...)]: what the process wrote
      to its standard output and standard error, and the error. *)
  cmd_Run : string -> list string -> string * string * Go.error;
  os_MkdirAll : string -> Go.error;
  os_Create : string -> Go.error;
  (** [io.Copy] of a content into the file created at a path. *)
  io_Copy : string -> string -> Go.error;
  (** [zip.OpenReader] of the file at a path holding a content. *)
  zip_OpenReader : string -> string -> list ZipFile + string;
  strings_EqualFold : string -> string -> bool;
  (** [os.OpenFile] of the log file, for appending. *)
  os_OpenFile : string -> Go.error;
  os_Hostname : string * Go.error;
  (** [time.Now().UnixMilli()]. *)
  time_Now : Z
}.

(** What was done to the file system. *)
Inductive FsOp :=
| MkdirAll (dir : string)
| Create (path : string)
| Write (path content : string)
| OpenAppend (path : string).

(** The log lines of the functions around the pipeline, one constructor
    per call site. *)
Inductive Note :=
| NoteErrorOutput (stderr : string)
| NoteCheckingCli
| NoteFoundCli (exePath : string)
| NoteFoundInstalled (dir : string)
| NoteDownloadingCli
| NoteDownloadingFrom (url : string)
| NoteDownloadOk (status : string)
| NoteExtracting
| NoteInstalled (exePath : string)
| NoteConfigValidated (url username : string)
| NoteStarting
| NoteVersion
| NoteLogFile (path : string)
| NoteInvalidLogPath (err : string)
| NoteOpenLogFailed (err : string)
| NoteConfigInvalid (err : string)
| NoteEnsureFailed (err : string)
| NoteTestFailed (err : string)
| NoteHostnameWarning (err : string)
| NoteHostname (hostname : string)
| NoteSendFailed (err : string)
| NoteSuccess.

(** The state of a run: the pipeline's world, the other log lines, what
    was printed to standard error, the PATH variable and the file-system
    operations; lists are newest first. *)
Record Process := {
  world : World;
  notes : list Note;
  stderr : list string;
  PATH : string;
  fsOps : list FsOp
}.

Definition Process0 : Process :=
  {| world := World0; notes := []; stderr := []; PATH := ""; fsOps := [] |}.

Definition P (A : Type) : Type := Process -> Res A * Process.

Definition retP {A} (a : A) : P A := fun p => (Val a, p).

Definition bindP {A B} (m : P A) (k : A -> P B) : P B :=
  fun p =>
    match m p with
    | (Val a, p') => k a p'
    | (Panic msg, p') => (Panic msg, p')
    end.

Declare Scope proc_scope.
Delimit Scope proc_scope with proc.
Notation "x <- m ;; k" := (bindP m (fun x => k))
  (at level 100, m at next level, right associativity) : proc_scope.
Notation "m ;; k" := (bindP m (fun _ => k))
  (at level 100, right associativity) : proc_scope.
Local Open Scope proc_scope.

(** A computation of the pipeline, run on the process's world. *)
Definition liftM {A} (m : M A) : P A :=
  fun p =>
    let (r, w') := m (world p) in
    (r, {| world := w'; notes := notes p; stderr := stderr p;
           PATH := PATH p; fsOps := fsOps p |}).

Definition liftRes {A} (r : Res A) : P A := fun p => (r, p).

Definition note (n : Note) : P unit :=
  fun p => (Val tt,
            {| world := world p; notes := n :: notes p; stderr := stderr p;
               PATH := PATH p; fsOps := fsOps p |}).

(** [fmt.Fprintf(os.Stderr, ...)]. *)
Definition eprint (line : string) : P unit :=
  fun p => (Val tt,
            {| world := world p; notes := notes p; stderr := line :: stderr p;
               PATH := PATH p; fsOps := fsOps p |}).

(** [os.Setenv("PATH", dir+";"+os.Getenv("PATH"))]. *)
Definition prependPATH (dir : string) : P unit :=
  fun p => (Val tt,
            {| world := world p; notes := notes p; stderr := stderr p;
               PATH := dir ++ ";" ++ PATH p; fsOps := fsOps p |}).

Definition fsop (op : FsOp) : P unit :=
  fun p => (Val tt,
            {| world := world p; notes := notes p; stderr := stderr p;
               PATH := PATH p; fsOps := op :: fsOps p |}).

(** The line feed of the format strings. *)
Definition nl : string := String (Ascii.ascii_of_nat 10) "".

(** [DefaultRunner.Run], main.go:31. *)
Definition DefaultRunner_Run (H : Host) (name : string) (args : list string)
    : P (string * Go.error) :=
  let '(out, errout, err) := cmd_Run H name args in
  match err with
  | Some e =>
      note (NoteErrorOutput errout) ;;
      retP ("", Some ("command failed: " ++ e))
  | None => retP (out, None)
  end.

(** What [DefaultRunner.Run] returns, as a [CommandRunner] for
    [runLibrespeed]; its log line on failure is not recorded there. *)
Definition DefaultRunner (H : Host) (name : string) (args : list string)
    : string * Go.error :=
  let '(out, errout, err) := cmd_Run H name args in
  match err with
  | Some e => ("", Some ("command failed: " ++ e))
  | None => (out, None)
  end.

(** The environment with another command runner. *)
Definition withRunner (E : Env) (run : string -> list string -> string * Go.error) : Env :=
  {| Run := run;
     json_Unmarshal := json_Unmarshal E;
     Marshal := Marshal E;
     snappy_Encode := snappy_Encode E;
     url_Parse := url_Parse E;
     client_Do := client_Do E;
     rand_raw := rand_raw E |}.

Definition installDir : string := "C:\librespeed-cli".

Definition zipURL : string :=
  "https://github.com/librespeed/speedtest-cli/releases/download/v1.0.12/librespeed-cli_1.0.12_windows_amd64.zip".

(** How the loop over the archive's files ends, main.go:130-156. *)
Inductive Extracted :=
| ExtractedExe
| ExtractFailed (err : string)
| NoExe.

(** The loop [for _, f := range r.File], main.go:131-152.  A copy that
    fails is not recorded as a write. *)
Fixpoint extractExe (H : Host) (exePath : string) (entries : list ZipFile)
    : P Extracted :=
  match entries with
  | [] => retP NoExe
  | f :: rest =>
      if strings_EqualFold H (ZName f) "librespeed-cli.exe" then
        match ZOpen f with
        | inr e => retP (ExtractFailed ("failed to open file in ZIP: " ++ e))
        | inl content =>
            match os_Create H exePath with
            | Some e => retP (ExtractFailed ("failed to create EXE file: " ++ e))
            | None =>
                fsop (Create exePath) ;;
                match io_Copy H exePath content with
                | Some e => retP (ExtractFailed ("failed to extract EXE: " ++ e))
                | None =>
                    fsop (Write exePath content) ;;
                    retP ExtractedExe
                end
            end
        end
      else extractExe H exePath rest
  end.

(** [ensureLibrespeedCLI], main.go:59. *)
Definition ensureLibrespeedCLI (H : Host) (E : Env) : P (string * Go.error) :=
  note NoteCheckingCli ;;
  match exec_LookPath H "librespeed-cli.exe" with
  | inl exePath =>
      note (NoteFoundCli exePath) ;;
      retP (exePath, None)
  | inr _ =>
      let exePath := filepath_Join H installDir "librespeed-cli.exe" in
      match os_Stat H exePath with
      | StatInfo _ =>
          note (NoteFoundInstalled installDir) ;;
          prependPATH installDir ;;
          retP (exePath, None)
      | StatError _ =>
          note NoteDownloadingCli ;;
          match os_MkdirAll H installDir with
          | Some e => retP ("", Some ("failed to create install directory: " ++ e))
          | None =>
              fsop (MkdirAll installDir) ;;
              match NewRequestWithContext E (30 * Go.Second) "GET" zipURL "" with
              | inr e => retP ("", Some ("failed to create HTTP request: " ++ e))
              | inl req =>
                  note (NoteDownloadingFrom zipURL) ;;
                  r <- liftM (Do E (30 * Go.Second) req) ;;
                  match r with
                  | inr e => retP ("", Some ("failed to download ZIP: " ++ e))
                  | inl resp =>
                      if negb (StatusCode resp =? 200) then
                        retP ("", Some ("download failed with status: " ++ Status resp))
                      else
                        note (NoteDownloadOk (Status resp)) ;;
                        let zipPath := filepath_Join H installDir "librespeed-cli.zip" in
                        match os_Create H zipPath with
                        | Some e => retP ("", Some ("failed to create ZIP file: " ++ e))
                        | None =>
                            fsop (Create zipPath) ;;
                            match io_Copy H zipPath (RespBody resp) with
                            | Some e => retP ("", Some ("failed to save ZIP file: " ++ e))
                            | None =>
                                fsop (Write zipPath (RespBody resp)) ;;
                                note NoteExtracting ;;
                                match zip_OpenReader H zipPath (RespBody resp) with
                                | inr e => retP ("", Some ("failed to open ZIP: " ++ e))
                                | inl entries =>
                                    x <- extractExe H exePath entries ;;
                                    match x with
                                    | ExtractFailed e => retP ("", Some e)
                                    | NoExe =>
                                        retP ("", Some "librespeed-cli.exe not found in downloaded ZIP file")
                                    | ExtractedExe =>
                                        note (NoteInstalled exePath) ;;
                                        prependPATH installDir ;;
                                        retP (exePath, None)
                                    end
                                end
                            end
                        end
                  end
              end
          end
      end
  end.

(** [validateLogFilePath], main.go:335.  When [os.Stat] fails with an
    error that [os.IsNotExist] does not recognize, [stat] is nil and
    [stat.IsDir()] panics. *)
Definition validateLogFilePath (H : Host) (path : string) : Res Go.error :=
  if String.eqb path "" then
    Val (Some "log file path cannot be empty")
  else
    let dir := filepath_Dir H path in
    match os_Stat H dir with
    | StatError true => Val (Some ("log file directory does not exist: " ++ dir))
    | StatError false =>
        Panic "runtime error: invalid memory address or nil pointer dereference"
    | StatInfo isDir =>
        if negb isDir then Val (Some ("log file directory does not exist: " ++ dir))
        else Val None
    end.

(** [validateConfiguration], main.go:347. *)
Definition validateConfiguration (H : Host) (remoteWriteURL username password : string)
    : P Go.error :=
  if String.eqb remoteWriteURL "" then retP (Some "remote write URL is required")
  else if String.eqb username "" then retP (Some "username is required")
  else if String.eqb password "" then retP (Some "password is required")
  else
    match url_ParseURL H remoteWriteURL with
    | inr e => retP (Some ("invalid remote write URL format: " ++ e))
    | inl parsedURL =>
        if negb (String.eqb (Scheme parsedURL) "http") &&
           negb (String.eqb (Scheme parsedURL) "https")
        then retP (Some "remote write URL must use http or https scheme")
        else if String.eqb (UHost parsedURL) ""
        then retP (Some "remote write URL must include a host")
        else
          note (NoteConfigValidated remoteWriteURL username) ;;
          retP None
    end.

(** The flags [main] declares, with their default values,
    main.go:377-382. *)
Definition declaredFlags : Flags :=
  {| flag_logfile := "librespeed_exporter.log";
     flag_url := "";
     flag_username := "";
     flag_password := "";
     flag_local_json := "";
     flag_server_id := 1 |}.

(** [main], main.go:376, on the command line [args]; the result is the
    exit status: 0 or 2 where [flag.Parse()] ends the program, 1 where the
    code calls [os.Exit(1)], 0 where [main] returns.  [serverID] is the
    pointer [flag.Int] returns, never nil.  Where the log lines go
    ([log.SetOutput]) and the closing of the log file when [main] returns
    are not recorded. *)
Definition main (H : Host) (E : Env) (args : list string) : P Z :=
  match flag_Parse H declaredFlags args with
  | HelpRequested usage =>
      eprint usage ;;
      retP 0
  | BadFlag report =>
      eprint report ;;
      retP 2
  | FlagsSet f =>
      note NoteStarting ;;
      note NoteVersion ;;
      note (NoteLogFile (flag_logfile f)) ;;
      v <- liftRes (validateLogFilePath H (flag_logfile f)) ;;
      match v with
      | Some e =>
          note (NoteInvalidLogPath e) ;;
          eprint ("Invalid log file path: " ++ e ++ nl) ;;
          retP 1
      | None =>
          match os_OpenFile H (flag_logfile f) with
          | Some e =>
              note (NoteOpenLogFailed e) ;;
              eprint ("Failed to open log file: " ++ e ++ nl) ;;
              retP 1
          | None =>
              fsop (OpenAppend (flag_logfile f)) ;;
              c <- validateConfiguration H (flag_url f) (flag_username f) (flag_password f) ;;
              match c with
              | Some e =>
                  note (NoteConfigInvalid e) ;;
                  eprint ("ERROR: Configuration validation failed: " ++ e ++ nl) ;;
                  retP 1
              | None =>
                  cli <- ensureLibrespeedCLI H E ;;
                  match snd cli with
                  | Some e =>
                      note (NoteEnsureFailed e) ;;
                      retP 1
                  | None =>
                      run <- liftM (runLibrespeed (withRunner E (DefaultRunner H)) (fst cli)
                                      (flag_local_json f) (Some (flag_server_id f))) ;;
                      match snd run with
                      | Some e =>
                          note (NoteTestFailed e) ;;
                          retP 1
                      | None =>
                          hostname <-
                            (match snd (os_Hostname H) with
                             | Some e =>
                                 note (NoteHostnameWarning e) ;;
                                 retP "unknown"
                             | None => retP (fst (os_Hostname H))
                             end) ;;
                          note (NoteHostname hostname) ;;
                          let now := time_Now H in
                          match fst run with
                          | None =>
                              liftRes (Panic "runtime error: invalid memory address or nil pointer dereference")
                          | Some result =>
                              let series := buildSeries result now hostname in
                              err <- liftM (sendToRemoteWriteWithRetry E (flag_url f)
                                              (flag_username f) (flag_password f) series 3) ;;
                              match err with
                              | Some e =>
                                  note (NoteSendFailed e) ;;
                                  retP 1
                              | None =>
                                  note NoteSuccess ;;
                                  retP 0
                              end
                          end
                      end
                  end
              end
          end
      end
  end.

Local Close Scope proc_scope.

(** More test doubles. *)
Module Double.

(** An environment whose URL check rejects the text [":"], as
    [TestSendToRemoteWrite_InvalidURL] has it. *)
Definition envBadURL : Env :=
  {| Run := Mock.runner "" None;
     json_Unmarshal := Mock.unmarshal;
     Marshal := Mock.marshal;
     snappy_Encode := fun data => data;
     url_Parse := fun u => if String.eqb u ":" then Some "missing protocol scheme" else None;
     client_Do := Mock.server 200 "200 OK" "";
     rand_raw := fun k => Z.of_nat k |}.

(** A server that is busy for its first [k] round trips and then accepts. *)
Definition flaky (k : nat) : nat -> HttpRequest -> HttpResponse + string :=
  fun i _ =>
    if (i <? k)%nat
    then inl {| StatusCode := 503; Status := "503 Service Unavailable"; RespBody := "busy" |}
    else inl {| StatusCode := 200; Status := "200 OK"; RespBody := "" |}.

Definition envFlaky (k : nat) : Env := Mock.env "[A,B]" None (flaky k).




(** The archive of the download: a text file and two files whose names
    fold to the tool's. *)
Definition archive : list ZipFile :=
  [ {| ZName := "LICENSE"; ZOpen := inl "text" |};
    {| ZName := "LibreSpeed-CLI.exe"; ZOpen := inl "first" |};
    {| ZName := "librespeed-cli.exe"; ZOpen := inl "second" |} ].

(** A command-line parser that knows the empty command line, [-h], and
    the three required flags in the order url, username, password;
    anything else counts as a flag that is not declared. *)
Definition parse (declared : Flags) (args : list string) : Parsed :=
  match args with
  | [] => FlagsSet declared
  | [a; url; b; username; c; password] =>
      if String.eqb a "-url" && String.eqb b "-username" && String.eqb c "-password"
      then FlagsSet {| flag_logfile := flag_logfile declared;
                       flag_url := url;
                       flag_username := username;
                       flag_password := password;
                       flag_local_json := flag_local_json declared;
                       flag_server_id := flag_server_id declared |}
      else BadFlag ("flag provided but not defined: " ++ a)
  | a :: _ =>
      if String.eqb a "-h" then HelpRequested "Usage of librespeed-exporter:"
      else BadFlag ("flag provided but not defined: " ++ a)
  end.

(** A host with an existing working directory, a tool that prints two
    results, and a file system that accepts every operation; what
    [exec.LookPath], [os.Stat] of anything but the working directory and
    the tool's process answer is chosen per double. *)
Definition host (lookPath : string + string) (stat : StatResult) (cmdErr : Go.error) : Host :=
  {| flag_Parse := parse;
     filepath_Dir := fun _ => ".";
     filepath_Join := fun a b => a ++ "/" ++ b;
     os_Stat := fun path => if String.eqb path "." then StatInfo true else stat;
     url_ParseURL := fun u =>
       if String.eqb u "http://x" then inl {| Scheme := "http"; UHost := "x" |}
       else if String.eqb u "ftp://x" then inl {| Scheme := "ftp"; UHost := "x" |}
       else inr "missing protocol scheme";
     exec_LookPath := fun _ => lookPath;
     cmd_Run := fun _ _ => ("[A,B]", "trace", cmdErr);
     os_MkdirAll := fun _ => None;
     os_Create := fun _ => None;
     io_Copy := fun _ _ => None;
     zip_OpenReader := fun _ _ => inl archive;
     strings_EqualFold := fun a b =>
       (String.eqb a "LibreSpeed-CLI.exe" || String.eqb a "librespeed-cli.exe")
       && String.eqb b "librespeed-cli.exe";
     os_OpenFile := fun _ => None;
     os_Hostname := ("host1", None);
     time_Now := 1690000000000 |}.

(** The tool is on the PATH. *)
Definition hostOnPath : Host := host (inl "/usr/bin/librespeed-cli.exe") (StatError true) None.

(** The tool is in the install directory. *)
Definition hostInstalled : Host := host (inr "not found") (StatInfo false) None.

(** The tool has to be downloaded. *)
Definition hostBare : Host := host (inr "not found") (StatError true) None.


(** A host on which [os.Stat] is denied. *)
Definition hostDenied : Host :=
  {| flag_Parse := parse;
     filepath_Dir := fun _ => "/root/logs";
     filepath_Join := fun a b => a ++ "/" ++ b;
     os_Stat := fun _ => StatError false;
     url_ParseURL := fun _ => inr "missing protocol scheme";
     exec_LookPath := fun _ => inr "not found";
     cmd_Run := fun _ _ => ("", "", None);
     os_MkdirAll := fun _ => None;
     os_Create := fun _ => None;
     io_Copy := fun _ _ => None;
     zip_OpenReader := fun _ _ => inl [];
     strings_EqualFold := fun _ _ => false;
     os_OpenFile := fun _ => None;
     os_Hostname := ("host1", None);
     time_Now := 0 |}.

(** A command line with the three required flags, and the values
    [parse] reads from it. *)
Definition args : list string :=
  ["-url"; "http://x"; "-username"; "user"; "-password"; "pass"].

Definition flags : Flags :=
  {| flag_logfile := "librespeed_exporter.log"; flag_url := "http://x";
     flag_username := "user"; flag_password := "pass";
     flag_local_json := ""; flag_server_id := 1 |}.

(** The same command line with an empty username. *)
Definition argsNoUser : list string :=
  ["-url"; "http://x"; "-username"; ""; "-password"; "pass"].

Definition flagsNoUser : Flags :=
  {| flag_logfile := "librespeed_exporter.log"; flag_url := "http://x";
     flag_username := ""; flag_password := "pass";
     flag_local_json := ""; flag_server_id := 1 |}.

End Double.

(* ===================================================================== *)
(** ** Predicates of the statements *)
(* ===================================================================== *)

(** The series carries at least one sample. *)
Definition hasSample (ts : prompb.TimeSeries) : bool :=
  match prompb.Samples ts with
  | [] => false
  | _ :: _ => true
  end.



(** Only the log differs between the two worlds. *)
Definition quiet (w w' : World) : Prop :=
  requests w' = requests w /\ sleeps w' = sleeps w /\
  draws w' = draws w /\ calls w' = calls w.

(** What a request of [sendToRemoteWrite] looks like. *)
Definition remoteWritePost (E : Env) (url username password data : string)
    (req : HttpRequest) : Prop :=
  Method req = "POST" /\ Target req = url /\
  Body req = snappy_Encode E data /\
  Header_Get req "Content-Encoding" = Some "snappy" /\
  Header_Get req "Content-Type" = Some "application/x-protobuf" /\
  Header_Get req "X-Prometheus-Remote-Write-Version" = Some "0.1.0" /\
  BasicAuth req = Some (username, password) /\
  ctxTimeout req = 30 * Go.Second /\ clientTimeout req = 30 * Go.Second.

Ltac run := unfold bind, ret, panic, logf, time_Sleep, enter; simpl.

(** The world after one random draw. *)
Definition drew (w : World) : World :=
  {| requests := requests w; sleeps := sleeps w; draws := S (draws w);
     log := log w; calls := calls w |}.

(** A delay of a whole number of seconds between 1 and 30. *)
Definition boundedDelay (d : Z) : Prop :=
  exists secs, d = secs * Go.Second /\ 1 <= secs <= 30.

(** Every delivery attempt fails, with a message the loop retries on. *)
Definition alwaysRetryable (E : Env) (url username password : string)
    (series : list prompb.TimeSeries) : Prop :=
  forall w, exists m,
    fst (sendToRemoteWrite E url username password series w) = Val (Some m) /\
    nonRetryable m = false.

(** The text of the terminal error. *)
Definition terminalError (attempts : Z) (lastErr : Go.error) : string :=
  "failed after " ++ Go.verb_d attempts ++ " attempts, last error: " ++ Go.verb_v lastErr.

(** The request [sendToRemoteWrite] builds for serialized [data]. *)
Definition thePost (E : Env) (url username password data : string) : HttpRequest :=
  {| Method := "POST"; Target := url; Body := snappy_Encode E data;
     Header := [("Content-Encoding", "snappy");
                ("Content-Type", "application/x-protobuf");
                ("X-Prometheus-Remote-Write-Version", "0.1.0")];
     BasicAuth := Some (username, password);
     ctxTimeout := 30 * Go.Second; clientTimeout := 30 * Go.Second |}.

(** How [sendToRemoteWrite] judges what the round trip gave,
    main.go:276-291. *)
Definition outcomeError (r : HttpResponse + string) : Go.error :=
  match r with
  | inr e => Some ("failed to send HTTP request: " ++ e)
  | inl resp =>
      if StatusCode resp >=? 300
      then Some ("remote_write failed: " ++ Status resp ++ " - " ++ RespBody resp)
      else None
  end.

(** The batch can be sent: it is not empty, every series has a sample, it
    serializes to [data] and the URL is accepted. *)
Definition sendable (E : Env) (url : string) (series : list prompb.TimeSeries)
    (data : string) : Prop :=
  series <> [] /\ forallb hasSample series = true /\
  Marshal E {| prompb.Timeseries := series |} = inl data /\
  url_Parse E url = None.

(** The request [ensureLibrespeedCLI] downloads the archive with. *)
Definition theGet : HttpRequest :=
  {| Method := "GET"; Target := zipURL; Body := ""; Header := [];
     BasicAuth := None;
     ctxTimeout := 30 * Go.Second; clientTimeout := 30 * Go.Second |}.

(** Between the two processes only file-system operations were added. *)
Definition onlyFs (p p' : Process) (ops : list FsOp) : Prop :=
  world p' = world p /\ notes p' = notes p /\ stderr p' = stderr p /\
  PATH p' = PATH p /\ fsOps p' = (ops ++ fsOps p)%list.

(** The archive file is the tool, up to the case of its name. *)
Definition isExe (H : Host) (f : ZipFile) : bool :=
  strings_EqualFold H (ZName f) "librespeed-cli.exe".

(** Where the tool is installed. *)
Definition installedExe (H : Host) : string :=
  filepath_Join H installDir "librespeed-cli.exe".

(** The configuration [validateConfiguration] accepts. *)
Definition validConfiguration (H : Host) (f : Flags) : Prop :=
  flag_url f <> "" /\ flag_username f <> "" /\ flag_password f <> "" /\
  exists parsed,
    url_ParseURL H (flag_url f) = inl parsed /\
    (Scheme parsed = "http" \/ Scheme parsed = "https") /\
    UHost parsed <> "".

(** The instance label [main] gives the series: the host's name, or
    [unknown] when it cannot be had. *)
Definition instanceName (H : Host) : string :=
  match snd (os_Hostname H) with
  | Some _ => "unknown"
  | None => fst (os_Hostname H)
  end.

(** The run delivered the tool's first result: the tool's process ended
    without error, the first element decoded from what it printed gave the
    four series, the batch could be sent, and the newest request is its
    POST to the configured endpoint with the configured credentials,
    answered with a status code below 300. *)
Definition delivered (H : Host) (E : Env) (f : Flags) (w' : World) : Prop :=
  exists cli toolArgs output errout result more data resp rest,
    cmd_Run H cli toolArgs = (output, errout, None) /\
    json_Unmarshal E output = inl (result :: more) /\
    sendable E (flag_url f) (buildSeries result (time_Now H) (instanceName H)) data /\
    requests w' = thePost E (flag_url f) (flag_username f) (flag_password f) data :: rest /\
    client_Do E (List.length rest)
              (thePost E (flag_url f) (flag_username f) (flag_password f) data)
      = inl resp /\
    StatusCode resp < 300.

(** The log lines [main] opens with, on top of those of [p]. *)
Definition opening (f : Flags) (p : Process) : list Note :=
  NoteLogFile (flag_logfile f) :: NoteVersion :: NoteStarting :: notes p.

(* ===================================================================== *)
(** ** Facts about the built-ins *)
(* ===================================================================== *)

Section StringFacts.

Lemma prefix_app (p t : string) : String.prefix p (p ++ t) = true.
Proof.
  induction p as [|c p IH]; simpl.
  - destruct t; reflexivity.
  - destruct (Ascii.ascii_dec c c) as [_|ne]; [exact IH | contradiction].
Qed.

Lemma prefix_split (p s : string) :
  String.prefix p s = true -> exists t, s = p ++ t.
Proof.
  revert s. induction p as [|c p IH]; intros s H.
  - exists s. reflexivity.
  - destruct s as [|d s]; simpl in H; [discriminate|].
    destruct (Ascii.ascii_dec c d) as [->|_]; [|discriminate].
    destruct (IH s H) as [t ->]. exists t. reflexivity.
Qed.

Lemma append_assoc (a b c : string) : (a ++ b) ++ c = a ++ (b ++ c).
Proof. induction a as [|x a IH]; simpl; [reflexivity | now rewrite IH]. Qed.

Lemma Contains_of_prefix (s sub : string) :
  String.prefix sub s = true -> Go.Contains s sub = true.
Proof. intros H. destruct s; cbn [Go.Contains]; rewrite H; reflexivity. Qed.

(** [strings.Contains] holds exactly of the strings with the substring
    somewhere inside. *)
Lemma Contains_intro (a sub b : string) : Go.Contains (a ++ sub ++ b) sub = true.
Proof.
  induction a as [|c a IH]; simpl.
  - apply Contains_of_prefix, prefix_app.
  - rewrite IH. apply orb_true_r.
Qed.

Lemma Contains_elim (s sub : string) :
  Go.Contains s sub = true -> exists a b, s = a ++ sub ++ b.
Proof.
  induction s as [|c s IH]; simpl; intros H.
  - rewrite orb_false_r in H. destruct sub; [|discriminate].
    exists "", "". reflexivity.
  - apply orb_true_iff in H. destruct H as [H|H].
    + destruct sub as [|d sub].
      * exists "", (String c s). reflexivity.
      * apply (prefix_split (String d sub) (String c s)) in H.
        destruct H as [t H]. exists "", t. exact H.
    + destruct (IH H) as (a & b & ->). exists (String c a), b. reflexivity.
Qed.

Lemma Contains_suffix (a s : string) : Go.Contains (a ++ s) s = true.
Proof.
  replace (a ++ s) with (a ++ s ++ "").
  - apply Contains_intro.
  - f_equal. induction s as [|c s IH]; simpl; [reflexivity | now rewrite IH].
Qed.

Lemma Contains_trans (s t u : string) :
  Go.Contains s t = true -> Go.Contains t u = true -> Go.Contains s u = true.
Proof.
  intros Hst Htu.
  destruct (Contains_elim _ _ Hst) as (a & b & ->).
  destruct (Contains_elim _ _ Htu) as (c & d & ->).
  replace (a ++ (c ++ u ++ d) ++ b) with ((a ++ c) ++ u ++ (d ++ b)).
  - apply Contains_intro.
  - now rewrite !append_assoc.
Qed.

Lemma Contains_app_r (a t u : string) :
  Go.Contains t u = true -> Go.Contains (a ++ t) u = true.
Proof.
  intros H. apply (Contains_trans _ t); [apply Contains_suffix | exact H].
Qed.

End StringFacts.

Section IntFacts.

Lemma wrap64_small (z : Z) : - 2 ^ 63 <= z < 2 ^ 63 -> Go.wrap64 z = z.
Proof.
  intros H. unfold Go.wrap64. rewrite Z.mod_small; lia.
Qed.

Lemma shl_1_small (s : Z) : 0 <= s <= 62 -> Go.shl 1 s = Some (2 ^ s).
Proof.
  intros H. unfold Go.shl.
  destruct (Z.ltb_spec s 0); [lia|].
  rewrite Z.shiftl_1_l, wrap64_small; [reflexivity|].
  assert (0 < 2 ^ s) by (apply Z.pow_pos_nonneg; lia).
  assert (2 ^ s <= 2 ^ 62) by (apply Z.pow_le_mono_r; lia).
  lia.
Qed.

(** From a count of 63 on, the shifted bit is the sign bit or is lost. *)
Lemma shl_1_large (s : Z) : 63 <= s -> exists v, Go.shl 1 s = Some v /\ v <= 0.
Proof.
  intros H. unfold Go.shl.
  destruct (Z.ltb_spec s 0); [lia|].
  eexists; split; [reflexivity|].
  rewrite Z.shiftl_1_l. unfold Go.wrap64.
  replace s with (63 + (s - 63)) by lia.
  rewrite Z.pow_add_r by lia.
  destruct (Z.eq_dec s 63) as [->|ne].
  - vm_compute. discriminate.
  - replace (s - 63) with (1 + (s - 64)) by lia.
    rewrite Z.pow_add_r by lia.
    replace (2 ^ 63 * (2 ^ 1 * 2 ^ (s - 64)) + 2 ^ 63)
      with (2 ^ 63 + 2 ^ (s - 64) * 2 ^ 64) by (change (2 ^ 64) with (2 ^ 63 * 2 ^ 1); ring).
    rewrite Z.mod_add by (vm_compute; discriminate).
    rewrite Z.mod_small by (vm_compute; split; [discriminate | reflexivity]).
    lia.
Qed.

End IntFacts.

(* ===================================================================== *)
(** ** One delivery attempt *)
(* ===================================================================== *)

Section Attempt.

Context (E : Env) (url username password : string).

Lemma quiet_refl w : quiet w w.
Proof. repeat split. Qed.

Lemma rangeSeries_spec (series : list prompb.TimeSeries) :
  forall tsList w,
    fst (rangeSeries series tsList w) =
      (if forallb hasSample series then Val (tsList ++ series)%list
       else Panic "runtime error: index out of range [0] with length 0") /\
    quiet w (snd (rangeSeries series tsList w)).
Proof.
  induction series as [|ts rest IH]; intros tsList w; simpl.
  - rewrite app_nil_r. split; [reflexivity | apply quiet_refl].
  - unfold hasSample at 1. destruct (prompb.Samples ts) as [|s0 more]; simpl.
    + split; [reflexivity | apply quiet_refl].
    + run. specialize (IH (tsList ++ [ts])%list
        {| requests := requests w; sleeps := sleeps w; draws := draws w;
           log := LogSendingMetric
                    (getLabelValue (prompb.Labels ts) "__name__")
                    (getLabelValue (prompb.Labels ts) "server_url")
                    (getLabelValue (prompb.Labels ts) "instance")
                    (prompb.SValue s0) (prompb.Timestamp s0) :: log w;
           calls := calls w |}).
      destruct IH as [IHr IHq]. rewrite <- app_assoc in IHr. simpl in IHr.
      split; [exact IHr | exact IHq].
Qed.

(** An attempt is counted once, takes no sleep and draws no random number. *)
Lemma sendToRemoteWrite_effects (series : list prompb.TimeSeries) (w : World) :
  calls (snd (sendToRemoteWrite E url username password series w)) = S (calls w) /\
  sleeps (snd (sendToRemoteWrite E url username password series w)) = sleeps w /\
  draws (snd (sendToRemoteWrite E url username password series w)) = draws w.
Proof.
  unfold sendToRemoteWrite. run.
  destruct (Z.of_nat (List.length series) =? 0); simpl; [auto|].
  match goal with |- context [rangeSeries series [] ?w1] =>
    destruct (rangeSeries_spec series [] w1) as [_ (q1 & q2 & q3 & q4)];
    destruct (rangeSeries series [] w1) as [[tsList|msg] w2]
  end; simpl in *; [|auto].
  destruct (Marshal E _) as [data|e]; simpl; [|auto].
  unfold NewRequestWithContext.
  destruct (url_Parse E url) as [e|]; simpl; [auto|].
  unfold Do; simpl.
  destruct (client_Do E _ _) as [resp|e]; simpl; [|auto].
  destruct (StatusCode resp >=? 300); simpl; auto.
Qed.

(** A failing serializer: the error, and no request. *)
Lemma sendToRemoteWrite_marshal_error (series : list prompb.TimeSeries)
    (e : string) (w : World) :
  series <> [] ->
  forallb hasSample series = true ->
  Marshal E {| prompb.Timeseries := series |} = inr e ->
  fst (sendToRemoteWrite E url username password series w) =
    Val (Some ("failed to marshal protobuf: " ++ e)) /\
  requests (snd (sendToRemoteWrite E url username password series w)) = requests w.
Proof.
  intros Hne Hs Hm.
  assert (Hlen : (Z.of_nat (List.length series) =? 0) = false)
    by (destruct series; [contradiction | reflexivity]).
  unfold sendToRemoteWrite. run. rewrite Hlen.
  match goal with |- context [rangeSeries ?s [] ?w1] =>
    destruct (rangeSeries_spec s [] w1) as [r (q1 & q2 & q3 & q4)];
    destruct (rangeSeries s [] w1) as [res w2]
  end.
  cbn [fst snd] in *. rewrite Hs in r. subst res. cbn [app].
  rewrite Hm. simpl. split; [reflexivity | exact q1].
Qed.

End Attempt.

(* ===================================================================== *)
(** ** The backoff delay *)
(* ===================================================================== *)

Section Backoff.

Context (E : Env).

(** For the attempts 1 to 63 the delay is [min 30 x] seconds, with [x]
    drawn from [[2^(a-1), 2^a)]. *)
Lemma retryDelayFunc_in_range (a : Z) (w : World) :
  1 <= a <= 63 ->
  exists x,
    retryDelayFunc E a w = (Val (Z.min 30 x * Go.Second), drew w) /\
    x = 2 ^ (a - 1) + rand_raw E (draws w) mod 2 ^ (a - 1) /\
    2 ^ (a - 1) <= x < 2 ^ a.
Proof.
  intros Ha.
  assert (Hpos : 0 < 2 ^ (a - 1)) by (apply Z.pow_pos_nonneg; lia).
  assert (Hle : 2 ^ (a - 1) <= 2 ^ 62) by (apply Z.pow_le_mono_r; lia).
  assert (Hdbl : 2 ^ a = 2 * 2 ^ (a - 1)).
  { replace a with (1 + (a - 1)) at 1 by lia. rewrite Z.pow_add_r by lia. reflexivity. }
  pose proof (Z.mod_pos_bound (rand_raw E (draws w)) (2 ^ (a - 1)) Hpos) as Hr.
  assert (H262 : 2 ^ 62 = 4611686018427387904) by reflexivity.
  assert (H263 : 2 ^ 63 = 9223372036854775808) by reflexivity.
  exists (2 ^ (a - 1) + rand_raw E (draws w) mod 2 ^ (a - 1)).
  split; [|split; [reflexivity | lia]].
  unfold retryDelayFunc, shift, rand_Intn, Go.Intn.
  rewrite (wrap64_small (a - 1)) by lia.
  rewrite shl_1_small by lia. run.
  destruct (Z.leb_spec (2 ^ (a - 1)) 0) as [Hz|_]; [lia|]. simpl.
  rewrite (wrap64_small (2 ^ (a - 1) + _)) by lia.
  set (x := 2 ^ (a - 1) + rand_raw E (draws w) mod 2 ^ (a - 1)).
  assert (Hcap : (if x >? 30 then 30 else x) = Z.min 30 x).
  { destruct (Z.gtb_spec x 30); lia. }
  rewrite Hcap.
  rewrite wrap64_small; [reflexivity|].
  unfold Go.Second. lia.
Qed.

Lemma retryDelayFunc_bounded (a : Z) (w : World) :
  1 <= a <= 63 ->
  exists d, retryDelayFunc E a w = (Val d, drew w) /\ boundedDelay d.
Proof.
  intros Ha. destruct (retryDelayFunc_in_range a w Ha) as (x & Hrun & _ & Hx).
  assert (0 < 2 ^ (a - 1)) by (apply Z.pow_pos_nonneg; lia).
  exists (Z.min 30 x * Go.Second). split; [exact Hrun|].
  exists (Z.min 30 x). split; [reflexivity | lia].
Qed.

(** From attempt 64 on, [1 << (attempt-1)] is not positive and
    [rand.Intn] panics: no delay is computed. *)
Lemma retryDelayFunc_overflow (a : Z) (w : World) :
  64 <= a < 2 ^ 63 ->
  retryDelayFunc E a w = (Panic "invalid argument to Intn", w).
Proof.
  intros Ha.
  assert (H263 : 2 ^ 63 = 9223372036854775808) by reflexivity.
  unfold retryDelayFunc, shift, rand_Intn, Go.Intn.
  rewrite (wrap64_small (a - 1)) by lia.
  destruct (shl_1_large (a - 1)) as (v & -> & Hv); [lia|]. run.
  destruct (Z.leb_spec v 0); [reflexivity | lia].
Qed.

End Backoff.

(* ===================================================================== *)
(** ** The retry loop *)
(* ===================================================================== *)

Section Retry.

Context (E : Env) (url username password : string)
        (series : list prompb.TimeSeries).

(** The delay taken at the head of an iteration: none at the first
    attempt, one bounded sleep before each of the retries 1 to 63. *)
Lemma backoff_step (maxRetries attempt : Z) (w : World) :
  0 <= attempt <= 63 ->
  exists w1 ds1,
    (if attempt >? 0
     then bind (retryDelayFunc E attempt) (fun delay =>
            bind (logf (LogRetrying delay (attempt + 1) (Go.wrap64 (maxRetries + 1))))
                 (fun _ => time_Sleep delay))
     else ret tt) w = (Val tt, w1) /\
    calls w1 = calls w /\ sleeps w1 = (ds1 ++ sleeps w)%list /\
    List.length ds1 = (if (attempt =? 0)%Z then 0 else 1)%nat /\
    Forall boundedDelay ds1.
Proof.
  intros Ha. destruct (Z.gtb_spec attempt 0) as [Hpos|Hzero].
  - destruct (retryDelayFunc_bounded E attempt w) as (d & Hd & Hbd); [lia|].
    unfold bind at 1. rewrite Hd. run.
    eexists _, [d]. split; [reflexivity|]. simpl.
    destruct (Z.eqb_spec attempt 0); [lia|]. repeat split; auto.
  - exists w, []. assert (attempt = 0) as -> by lia. simpl.
    repeat split; auto.
Qed.

Lemma retryLoop_exhausts (maxRetries : Z) :
  alwaysRetryable E url username password series ->
  forall (remaining : nat) (attempt : Z) (lastErr : Go.error) (w : World),
    0 <= attempt -> attempt + Z.of_nat remaining <= 64 ->
    exists e w' ds,
      retryLoop E url username password series maxRetries remaining attempt lastErr w
        = (Val (Done e), w') /\
      calls w' = (calls w + remaining)%nat /\
      sleeps w' = (ds ++ sleeps w)%list /\
      List.length ds = (remaining - (if (attempt =? 0)%Z then 1 else 0))%nat /\
      Forall boundedDelay ds /\
      (remaining = O -> e = lastErr) /\
      (remaining <> O ->
       exists m w0,
         e = Some m /\ nonRetryable m = false /\
         fst (sendToRemoteWrite E url username password series w0) = Val (Some m)).
Proof.
  intros Hall. induction remaining as [|r IH]; intros attempt lastErr w H0 Hb.
  - exists lastErr, w, []. simpl. repeat split; auto. contradiction.
  - cbn [retryLoop].
    destruct (backoff_step maxRetries attempt w) as (w1 & ds1 & Hrun1 & Hc1 & Hs1 & Hl1 & Hf1);
      [lia|].
    unfold bind at 1. rewrite Hrun1.
    (* the attempt *)
    destruct (Hall w1) as (m & Hm & Hnr).
    assert (Hkeep : exists w0,
      fst (sendToRemoteWrite E url username password series w0) = Val (Some m))
      by (exists w1; exact Hm).
    destruct (sendToRemoteWrite_effects E url username password series w1)
      as (Hc2 & Hs2 & _).
    unfold bind at 1.
    destruct (sendToRemoteWrite E url username password series w1) as [res w2].
    cbn [fst snd] in *. subst res. run. rewrite Hnr.
    match goal with |- context [retryLoop _ _ _ _ _ _ r (attempt + 1) (Some m) ?w3] =>
      destruct (IH (attempt + 1) (Some m) w3) as (e & w' & ds & Hloop & Hc & Hs & Hl & Hf & _ & Hlast);
        [lia | lia |]
    end.
    rewrite Hloop. simpl in Hc, Hs.
    exists e, w', (ds ++ ds1)%list. split; [reflexivity|].
    split; [lia|]. split; [rewrite Hs, Hs2, Hs1, app_assoc; reflexivity|].
    split.
    { rewrite length_app, Hl, Hl1.
      destruct (Z.eqb_spec (attempt + 1) 0); [lia|].
      destruct (Z.eqb_spec attempt 0); lia. }
    split; [apply Forall_app; split; assumption|].
    split; [discriminate|]. intros _.
    destruct r as [|r'].
    + simpl in Hloop. inversion Hloop; subst. destruct Hkeep as [w0 Hw0].
      exists m, w0. split; [reflexivity | split; [exact Hnr | exact Hw0]].
    + apply Hlast. discriminate.
Qed.

(** With every attempt failing retryably and at most 63 retries, the
    wrapper makes [maxRetries + 1] attempts, sleeps a bounded delay before
    each retry, and returns the terminal error. *)
Lemma retry_exhausts (maxRetries : Z) (w : World) :
  0 <= maxRetries <= 63 ->
  alwaysRetryable E url username password series ->
  exists m w' ds,
    sendToRemoteWriteWithRetry E url username password series maxRetries w
      = (Val (Some (terminalError (maxRetries + 1) (Some m))), w') /\
    nonRetryable m = false /\
    (exists w0, fst (sendToRemoteWrite E url username password series w0) = Val (Some m)) /\
    calls w' = (calls w + Z.to_nat (maxRetries + 1))%nat /\
    sleeps w' = (ds ++ sleeps w)%list /\
    List.length ds = Z.to_nat maxRetries /\
    Forall boundedDelay ds.
Proof.
  intros HN Hall.
  destruct (retryLoop_exhausts maxRetries Hall (Z.to_nat (maxRetries + 1)) 0 None w)
    as (e & w' & ds & Hloop & Hc & Hs & Hl & Hf & _ & Hlast); [lia | lia |].
  destruct Hlast as (m & w0 & -> & Hnr & Hw0); [lia|].
  exists m, w', ds.
  unfold sendToRemoteWriteWithRetry, bind. rewrite Hloop. run.
  rewrite wrap64_small by (change (2 ^ 63) with 9223372036854775808; lia).
  split; [reflexivity|]. split; [exact Hnr|]. split; [exists w0; exact Hw0|].
  split; [exact Hc|].
  split; [exact Hs|]. split; [|exact Hf].
  rewrite Hl. simpl. lia.
Qed.

(** A loop that runs into [attempt = 64] panics there, after the attempts
    before it. *)
Lemma retryLoop_overflows (maxRetries : Z) :
  alwaysRetryable E url username password series ->
  forall (remaining : nat) (attempt : Z) (lastErr : Go.error) (w : World),
    0 <= attempt <= 64 -> 64 < attempt + Z.of_nat remaining ->
    exists w',
      retryLoop E url username password series maxRetries remaining attempt lastErr w
        = (Panic "invalid argument to Intn", w') /\
      calls w' = (calls w + Z.to_nat (64 - attempt))%nat.
Proof.
  intros Hall. induction remaining as [|r IH]; intros attempt lastErr w Ha Hb; [lia|].
  cbn [retryLoop].
  destruct (Z.eq_dec attempt 64) as [->|Hlt].
  - change (64 >? 0) with true. cbv iota. unfold bind at 1. unfold bind at 1.
    rewrite retryDelayFunc_overflow by (split; [lia | reflexivity]).
    exists w. split; [reflexivity | simpl; lia].
  - remember (Z.to_nat (64 - attempt)) as k eqn:Hk.
    destruct (backoff_step maxRetries attempt w) as (w1 & ds1 & Hrun1 & Hc1 & _);
      [lia|].
    unfold bind at 1. rewrite Hrun1.
    destruct (Hall w1) as (m & Hm & Hnr).
    destruct (sendToRemoteWrite_effects E url username password series w1)
      as (Hc2 & _).
    unfold bind at 1.
    destruct (sendToRemoteWrite E url username password series w1) as [res w2].
    cbn [fst snd] in *. subst res. run. rewrite Hnr.
    match goal with |- context [retryLoop _ _ _ _ _ _ r (attempt + 1) (Some m) ?w3] =>
      destruct (IH (attempt + 1) (Some m) w3) as (w' & Hloop & Hc); [lia | lia |]
    end.
    exists w'. split; [exact Hloop|]. cbn [calls] in Hc. lia.
Qed.

(** With every attempt failing retryably and 64 retries or more allowed,
    the wrapper makes 64 attempts and panics: it returns no error. *)
Lemma retry_overflows (maxRetries : Z) (w : World) :
  64 <= maxRetries ->
  alwaysRetryable E url username password series ->
  exists w',
    sendToRemoteWriteWithRetry E url username password series maxRetries w
      = (Panic "invalid argument to Intn", w') /\
    calls w' = (calls w + 64)%nat.
Proof.
  intros HN Hall.
  destruct (retryLoop_overflows maxRetries Hall (Z.to_nat (maxRetries + 1)) 0 None w)
    as (w' & Hloop & Hc); [lia | lia |].
  exists w'. unfold sendToRemoteWriteWithRetry, bind. rewrite Hloop.
  split; [reflexivity | exact Hc].
Qed.

End Retry.

(* ===================================================================== *)
(** ** The specification's claims *)
(* ===================================================================== *)

(** *** The time-series builder *)

(** C6: for every result, timestamp and instance identifier, the batch has
    exactly four series, named for download, upload, ping and jitter in
    that order and carrying the result's four values; every series has the
    labels [__name__], [server_url], [instance] in that order, the result's
    server URL and the instance as the values of the last two, and exactly
    one sample, stamped with the one timestamp. *)
Theorem buildSeries_four_series (result : LibrespeedResult) (now : Z) (hostname : string) :
  List.length (buildSeries result now hostname) = 4%nat /\
  map (fun ts => getLabelValue (prompb.Labels ts) "__name__")
      (buildSeries result now hostname)
    = ["librespeed_download_mbps"; "librespeed_upload_mbps";
       "librespeed_ping_ms"; "librespeed_jitter_ms"] /\
  map (fun ts => map prompb.SValue (prompb.Samples ts))
      (buildSeries result now hostname)
    = [[Download result]; [Upload result]; [Ping result]; [Jitter result]] /\
  Forall (fun ts =>
            map prompb.Name (prompb.Labels ts) = ["__name__"; "server_url"; "instance"] /\
            getLabelValue (prompb.Labels ts) "server_url" = URL (Server result) /\
            getLabelValue (prompb.Labels ts) "instance" = hostname /\
            map prompb.Timestamp (prompb.Samples ts) = [now])
         (buildSeries result now hostname).
Proof.
  split; [reflexivity|]. split; [reflexivity|]. split; [reflexivity|].
  unfold buildSeries. repeat constructor.
Qed.

(** *** The result parser *)




(** Scenario A: an array of two results; the first is returned. *)
Example runLibrespeed_two_results :
  fst (runLibrespeed Mock.env200 "librespeed-cli.exe" "" None World0)
    = Val (Some Mock.resultA, None).
Proof. reflexivity. Qed.

(** Scenario B: the empty array. *)
Example runLibrespeed_empty_array :
  fst (runLibrespeed (Mock.env "[]" None (Mock.server 200 "200 OK" ""))
                     "librespeed-cli.exe" "" None World0)
    = Val (None, Some "no results returned from librespeed-cli").
Proof. reflexivity. Qed.

(** Scenario C: text that does not decode. *)
Example runLibrespeed_invalid_json :
  fst (runLibrespeed (Mock.env "invalid json" None (Mock.server 200 "200 OK" ""))
                     "librespeed-cli.exe" "" None World0)
    = Val (None, Some "failed to parse JSON: invalid character 'i' looking for beginning of value").
Proof. reflexivity. Qed.

(** *** One delivery attempt *)

(** C8: on an empty series list the attempt fails with the empty-batch
    error and leaves the world as it found it but for the count of
    attempts: no request, whatever the serializer, the compressor and the
    transport would have done. *)
Theorem sendToRemoteWrite_empty_batch (E : Env) (url username password : string)
    (w : World) :
  fst (sendToRemoteWrite E url username password [] w)
    = Val (Some "no time series data to send") /\
  requests (snd (sendToRemoteWrite E url username password [] w)) = requests w /\
  sleeps (snd (sendToRemoteWrite E url username password [] w)) = sleeps w /\
  draws (snd (sendToRemoteWrite E url username password [] w)) = draws w /\
  log (snd (sendToRemoteWrite E url username password [] w)) = log w.
Proof. repeat split. Qed.

Lemma hasSample_all (series : list prompb.TimeSeries) :
  Forall (fun ts => prompb.Samples ts <> []) series ->
  forallb hasSample series = true.
Proof.
  induction 1 as [|ts rest Hts _ IH]; simpl; [reflexivity|].
  rewrite IH. unfold hasSample. destruct (prompb.Samples ts); [contradiction | reflexivity].
Qed.

Lemma hasSample_some_empty (series : list prompb.TimeSeries) :
  Exists (fun ts => prompb.Samples ts = []) series ->
  forallb hasSample series = false.
Proof.
  induction 1 as [ts rest Hts | ts rest _ IH]; simpl.
  - unfold hasSample. rewrite Hts. reflexivity.
  - rewrite IH. apply andb_false_r.
Qed.

(** C10: [ts.Samples[0]] is in bounds when every series of the list has a
    sample, and the attempt then returns; when some series has none the
    attempt panics on the index, before any request is made. *)
Theorem sendToRemoteWrite_sample_index (E : Env) (url username password : string)
    (series : list prompb.TimeSeries) (w : World) :
  (Forall (fun ts => prompb.Samples ts <> []) series ->
   exists e, fst (sendToRemoteWrite E url username password series w) = Val e) /\
  (Exists (fun ts => prompb.Samples ts = []) series ->
   fst (sendToRemoteWrite E url username password series w)
     = Panic "runtime error: index out of range [0] with length 0" /\
   requests (snd (sendToRemoteWrite E url username password series w)) = requests w).
Proof.
  split.
  - intros Hall. apply hasSample_all in Hall.
    unfold sendToRemoteWrite. run.
    destruct (Z.of_nat (List.length series) =? 0); simpl; [eauto|].
    match goal with |- context [rangeSeries series [] ?w1] =>
      destruct (rangeSeries_spec series [] w1) as [r _];
      destruct (rangeSeries series [] w1) as [res w2]
    end.
    cbn [fst] in r. rewrite Hall in r. subst res.
    destruct (Marshal E _) as [data|e]; simpl; [|eauto].
    unfold NewRequestWithContext.
    destruct (url_Parse E url) as [e|]; simpl; [eauto|].
    unfold Do; simpl.
    destruct (client_Do E _ _) as [resp|e]; simpl; [|eauto].
    destruct (StatusCode resp >=? 300); simpl; eauto.
  - intros Hex.
    assert (Hne : (Z.of_nat (List.length series) =? 0) = false)
      by (destruct Hex; reflexivity).
    apply hasSample_some_empty in Hex.
    unfold sendToRemoteWrite. run. rewrite Hne.
    match goal with |- context [rangeSeries series [] ?w1] =>
      destruct (rangeSeries_spec series [] w1) as [r (q & _)];
      destruct (rangeSeries series [] w1) as [res w2]
    end.
    cbn [fst snd] in *. rewrite Hex in r. subst res. simpl.
    split; [reflexivity | exact q].
Qed.

Lemma sendToRemoteWrite_sample_index_witness :
  (exists e, fst (sendToRemoteWrite Mock.env200 "http://x" "user" "pass"
                    Mock.oneSeries World0) = Val e) /\
  fst (sendToRemoteWrite Mock.env200 "http://x" "user" "pass"
         (Mock.oneSeries ++ [Mock.noSample]) World0)
    = Panic "runtime error: index out of range [0] with length 0".
Proof.
  split.
  - apply (sendToRemoteWrite_sample_index Mock.env200 "http://x" "user" "pass"
             Mock.oneSeries World0).
    repeat constructor; discriminate.
  - apply (sendToRemoteWrite_sample_index Mock.env200 "http://x" "user" "pass"
             (Mock.oneSeries ++ [Mock.noSample]) World0).
    right. left. reflexivity.
Defined.

(** C9, as the code has it: an attempt that gets as far as the network (a
    non-empty list whose series each carry a sample, serialized and with an
    accepted URL) hands the client exactly one request: a POST to the
    endpoint whose body is the compressed serialized batch, with the three
    headers, the basic-auth credentials and both timeouts at 30 seconds.
    On a transport error the attempt fails; on a response it succeeds
    exactly when the status code is below 300, and from 300 on it fails
    with an error that contains the status line and the response body. *)
Theorem sendToRemoteWrite_post (E : Env) (url username password : string)
    (series : list prompb.TimeSeries) (data : string) (w : World) :
  series <> [] ->
  forallb hasSample series = true ->
  Marshal E {| prompb.Timeseries := series |} = inl data ->
  url_Parse E url = None ->
  exists req,
    requests (snd (sendToRemoteWrite E url username password series w))
      = req :: requests w /\
    remoteWritePost E url username password data req /\
    match client_Do E (List.length (requests w)) req with
    | inr e =>
        fst (sendToRemoteWrite E url username password series w)
          = Val (Some ("failed to send HTTP request: " ++ e))
    | inl resp =>
        (fst (sendToRemoteWrite E url username password series w) = Val None
         <-> StatusCode resp < 300) /\
        (300 <= StatusCode resp ->
         exists m,
           fst (sendToRemoteWrite E url username password series w) = Val (Some m) /\
           Go.Contains m (Status resp) = true /\
           Go.Contains m (RespBody resp) = true)
    end.
Proof.
  intros Hne Hs Hm Hu.
  assert (Hlen : (Z.of_nat (List.length series) =? 0) = false)
    by (destruct series; [contradiction | reflexivity]).
  unfold sendToRemoteWrite. run. rewrite Hlen.
  match goal with |- context [rangeSeries series [] ?w1] =>
    destruct (rangeSeries_spec series [] w1) as [r (q & _)];
    destruct (rangeSeries series [] w1) as [res w2]
  end.
  cbn [fst snd requests] in *. rewrite Hs in r. subst res. cbn [app].
  rewrite Hm. unfold NewRequestWithContext. rewrite Hu. unfold Do. simpl.
  rewrite q.
  eexists. split.
  - destruct (client_Do E _ _) as [resp|e]; simpl;
      [destruct (StatusCode resp >=? 300)|]; reflexivity.
  - split; [repeat split|].
    destruct (client_Do E _ _) as [resp|e]; simpl; [|reflexivity].
    destruct (Z.geb_spec (StatusCode resp) 300) as [Hge|Hlt]; simpl.
    + split; [split; [discriminate | lia]|]. intros _.
      eexists. split; [reflexivity|]. split.
      * apply (Contains_intro "remote_write failed: " (Status resp)
                              (" - " ++ RespBody resp)).
      * apply (Contains_app_r "remote_write failed: "), (Contains_app_r (Status resp)).
        apply (Contains_suffix " - ").
    + split; [split; [lia | reflexivity] | lia].
Qed.

Lemma sendToRemoteWrite_post_witness :
  exists req,
    requests (snd (sendToRemoteWrite Mock.env200 "http://x" "user" "pass"
                     Mock.oneSeries World0)) = [req] /\
    remoteWritePost Mock.env200 "http://x" "user" "pass" "s" req /\
    fst (sendToRemoteWrite Mock.env200 "http://x" "user" "pass"
           Mock.oneSeries World0) = Val None.
Proof.
  destruct (sendToRemoteWrite_post Mock.env200 "http://x" "user" "pass"
              Mock.oneSeries "s" World0) as (req & Hreq & Hpost & Hres & _).
  - discriminate.
  - reflexivity.
  - reflexivity.
  - reflexivity.
  - exists req. split; [exact Hreq|]. split; [exact Hpost|].
    apply Hres. reflexivity.
Defined.

(** C9 as stated fails: a response with status 101 is not in [[200,300)],
    and the attempt succeeds on it. *)
Lemma sendToRemoteWrite_accepts_status_101 :
  (exists req, client_Do Mock.env101 0 req
     = inl {| StatusCode := 101; Status := "101 Switching Protocols"; RespBody := "" |}) /\
  fst (sendToRemoteWrite Mock.env101 "http://x" "user" "pass" Mock.oneSeries World0)
    = Val None /\
  List.length (requests (snd (sendToRemoteWrite Mock.env101 "http://x" "user" "pass"
                                Mock.oneSeries World0))) = 1%nat.
Proof.
  split; [|split; reflexivity].
  exists {| Method := ""; Target := ""; Body := ""; Header := [];
            BasicAuth := None; ctxTimeout := 0; clientTimeout := 0 |}.
  reflexivity.
Qed.

(** *** The retry wrapper *)

Lemma nonRetryable_of_code (m code : string) :
  In code ["400"; "401"; "403"; "404"] ->
  Go.Contains m code = true ->
  nonRetryable m = true.
Proof.
  unfold nonRetryable.
  intros [<-|[<-|[<-|[<-|[]]]]] ->; rewrite ?orb_true_r; reflexivity.
Qed.

Lemma terminalError_contains_last (attempts : Z) (m : string) :
  Go.Contains (terminalError attempts (Some m)) m = true.
Proof.
  unfold terminalError.
  apply (Contains_app_r "failed after "), (Contains_app_r (Go.verb_d attempts)).
  apply (Contains_suffix " attempts, last error: ").
Qed.

(** C2: for every [maxRetries >= 0] (so for every [maxRetries >= 1]), when
    the first attempt fails with a message that contains 400, 401, 403 or
    404, the wrapper returns after that one attempt: one call of
    [sendToRemoteWrite], no sleep, no random draw, no request beyond the
    first attempt's, and a terminal error that contains the attempt's
    message and with it the status. *)
Theorem retry_stops_on_client_error (E : Env) (url username password : string)
    (series : list prompb.TimeSeries) (maxRetries : Z) (w : World)
    (m code : string) :
  0 <= maxRetries ->
  fst (sendToRemoteWrite E url username password series w) = Val (Some m) ->
  In code ["400"; "401"; "403"; "404"] ->
  Go.Contains m code = true ->
  fst (sendToRemoteWriteWithRetry E url username password series maxRetries w)
    = Val (Some (terminalError (Go.wrap64 (maxRetries + 1)) (Some m))) /\
  Go.Contains (terminalError (Go.wrap64 (maxRetries + 1)) (Some m)) code = true /\
  calls (snd (sendToRemoteWriteWithRetry E url username password series maxRetries w))
    = S (calls w) /\
  sleeps (snd (sendToRemoteWriteWithRetry E url username password series maxRetries w))
    = sleeps w /\
  draws (snd (sendToRemoteWriteWithRetry E url username password series maxRetries w))
    = draws w /\
  requests (snd (sendToRemoteWriteWithRetry E url username password series maxRetries w))
    = requests (snd (sendToRemoteWrite E url username password series w)).
Proof.
  intros HN Hfirst Hcode Hin.
  pose proof (nonRetryable_of_code m code Hcode Hin) as Hnr.
  destruct (sendToRemoteWrite_effects E url username password series w)
    as (Hc & Hs & Hd).
  unfold sendToRemoteWriteWithRetry.
  destruct (Z.to_nat (maxRetries + 1)) as [|k] eqn:Hk; [lia|].
  cbn [retryLoop]. change (0 >? 0) with false. unfold bind, ret.
  destruct (sendToRemoteWrite E url username password series w) as [res w1].
  cbn [fst snd] in *. subst res. unfold logf. simpl. rewrite Hnr. simpl.
  split; [reflexivity|].
  split; [exact (Contains_trans _ m code (terminalError_contains_last _ m) Hin)|].
  auto.
Qed.

Lemma retry_stops_on_client_error_witness :
  fst (sendToRemoteWriteWithRetry Mock.env403 "http://x" "user" "pass" Mock.oneSeries 3 World0)
    = Val (Some (terminalError 4 (Some "remote_write failed: 403 Forbidden - Forbidden"))) /\
  Go.Contains (terminalError 4 (Some "remote_write failed: 403 Forbidden - Forbidden"))
              "403" = true /\
  calls (snd (sendToRemoteWriteWithRetry Mock.env403 "http://x" "user" "pass"
                Mock.oneSeries 3 World0)) = 1%nat /\
  sleeps (snd (sendToRemoteWriteWithRetry Mock.env403 "http://x" "user" "pass"
                 Mock.oneSeries 3 World0)) = [] /\
  draws (snd (sendToRemoteWriteWithRetry Mock.env403 "http://x" "user" "pass"
                Mock.oneSeries 3 World0)) = 0%nat /\
  requests (snd (sendToRemoteWriteWithRetry Mock.env403 "http://x" "user" "pass"
                   Mock.oneSeries 3 World0))
    = requests (snd (sendToRemoteWrite Mock.env403 "http://x" "user" "pass"
                       Mock.oneSeries World0)).
Proof.
  apply (retry_stops_on_client_error Mock.env403 "http://x" "user" "pass"
           Mock.oneSeries 3 World0
           "remote_write failed: 403 Forbidden - Forbidden" "403").
  - lia.
  - reflexivity.
  - simpl. auto.
  - reflexivity.
Defined.

(** C3, as the code has it: the empty-batch error and a serialization
    error are not set apart.  With a message that contains none of 400,
    401, 403, 404 they are retried like any other failure: for up to 63
    retries the wrapper makes [maxRetries + 1] attempts, sleeps a bounded
    delay before each retry, and only then returns the terminal error with
    the attempt's message. *)
Theorem retry_repeats_empty_and_encoding_errors (E : Env)
    (url username password : string) (series : list prompb.TimeSeries)
    (maxRetries : Z) (w : World) :
  0 <= maxRetries <= 63 ->
  (series = [] \/
   (series <> [] /\ forallb hasSample series = true /\
    exists e, Marshal E {| prompb.Timeseries := series |} = inr e /\
              nonRetryable ("failed to marshal protobuf: " ++ e) = false)) ->
  exists m w' ds,
    sendToRemoteWriteWithRetry E url username password series maxRetries w
      = (Val (Some (terminalError (maxRetries + 1) (Some m))), w') /\
    fst (sendToRemoteWrite E url username password series w) = Val (Some m) /\
    calls w' = (calls w + Z.to_nat (maxRetries + 1))%nat /\
    sleeps w' = (ds ++ sleeps w)%list /\
    List.length ds = Z.to_nat maxRetries /\
    Forall boundedDelay ds.
Proof.
  intros HN Hkind.
  assert (Hsame : exists m0, nonRetryable m0 = false /\
            forall w0, fst (sendToRemoteWrite E url username password series w0)
                       = Val (Some m0)).
  { destruct Hkind as [-> | (Hne & Hs & e & Hm & Hnr)].
    - exists "no time series data to send". split; reflexivity.
    - exists ("failed to marshal protobuf: " ++ e). split; [exact Hnr|].
      intros w0.
      apply (sendToRemoteWrite_marshal_error E url username password series e w0 Hne Hs Hm). }
  destruct Hsame as (m0 & Hnr0 & Hm0).
  assert (Hall : alwaysRetryable E url username password series)
    by (intros w0; exists m0; split; [apply Hm0 | exact Hnr0]).
  destruct (retry_exhausts E url username password series maxRetries w HN Hall)
    as (m & w' & ds & Hrun & _ & (w0 & Hw0) & Hc & Hs & Hl & Hf).
  rewrite Hm0 in Hw0. inversion Hw0; subst m.
  exists m0, w', ds. split; [exact Hrun|]. split; [apply Hm0|]. auto.
Qed.

Lemma retry_repeats_empty_and_encoding_errors_witness :
  exists m w' ds,
    sendToRemoteWriteWithRetry Mock.env200 "http://x" "user" "pass" [] 2 World0
      = (Val (Some (terminalError (2 + 1) (Some m))), w') /\
    fst (sendToRemoteWrite Mock.env200 "http://x" "user" "pass" [] World0)
      = Val (Some m) /\
    calls w' = (calls World0 + Z.to_nat (2 + 1))%nat /\
    sleeps w' = (ds ++ sleeps World0)%list /\
    List.length ds = Z.to_nat 2 /\
    Forall boundedDelay ds.
Proof.
  apply (retry_repeats_empty_and_encoding_errors Mock.env200 "http://x" "user" "pass"
           [] 2 World0).
  - lia.
  - left. reflexivity.
Defined.

(** C3 as stated fails: with two retries allowed, the empty-batch error
    and the serialization error are each met three times, with two sleeps
    between the attempts. *)
Lemma empty_and_encoding_errors_are_retried :
  fst (sendToRemoteWrite Mock.env200 "http://x" "user" "pass" [] World0)
    = Val (Some "no time series data to send") /\
  calls (snd (sendToRemoteWriteWithRetry Mock.env200 "http://x" "user" "pass" [] 2 World0))
    = 3%nat /\
  sleeps (snd (sendToRemoteWriteWithRetry Mock.env200 "http://x" "user" "pass" [] 2 World0))
    = [3 * Go.Second; 1 * Go.Second] /\
  fst (sendToRemoteWrite Mock.envMarshalFails "http://x" "user" "pass" Mock.oneSeries World0)
    = Val (Some "failed to marshal protobuf: proto: size mismatch") /\
  calls (snd (sendToRemoteWriteWithRetry Mock.envMarshalFails "http://x" "user" "pass"
                Mock.oneSeries 2 World0))
    = 3%nat /\
  sleeps (snd (sendToRemoteWriteWithRetry Mock.envMarshalFails "http://x" "user" "pass"
                 Mock.oneSeries 2 World0))
    = [3 * Go.Second; 1 * Go.Second].
Proof. repeat split. Qed.

(** Scenario F: a server answering 500 to every request, three retries:
    four attempts, three sleeps, then the terminal error. *)
Example retry_scenario_500 :
  fst (sendToRemoteWriteWithRetry Mock.env500 "http://x" "user" "pass" Mock.oneSeries 3 World0)
    = Val (Some (terminalError 4
        (Some "remote_write failed: 500 Internal Server Error - Internal server error with details"))) /\
  calls (snd (sendToRemoteWriteWithRetry Mock.env500 "http://x" "user" "pass"
                Mock.oneSeries 3 World0)) = 4%nat /\
  sleeps (snd (sendToRemoteWriteWithRetry Mock.env500 "http://x" "user" "pass"
                 Mock.oneSeries 3 World0))
    = [6 * Go.Second; 3 * Go.Second; 1 * Go.Second].
Proof. repeat split. Qed.

(** Scenario D: one series, a server answering 200: success at once. *)
Example retry_scenario_200 :
  fst (sendToRemoteWriteWithRetry Mock.env200 "http://x" "user" "pass" Mock.oneSeries 3 World0)
    = Val None /\
  calls (snd (sendToRemoteWriteWithRetry Mock.env200 "http://x" "user" "pass"
                Mock.oneSeries 3 World0)) = 1%nat.
Proof. repeat split. Qed.

(** C1 at [maxRetries = 64]: every attempt against a server that answers
    500 fails with a message the loop retries on, and the wrapper does not
    return a terminal error after 65 attempts: the delay before the retry
    with [attempt = 64] panics, after 64 attempts and 63 sleeps. *)
Theorem retry_panics_with_64_retries :
  alwaysRetryable Mock.env500 "http://x" "user" "pass" Mock.oneSeries /\
  fst (sendToRemoteWriteWithRetry Mock.env500 "http://x" "user" "pass"
         Mock.oneSeries 64 World0)
    = Panic "invalid argument to Intn" /\
  calls (snd (sendToRemoteWriteWithRetry Mock.env500 "http://x" "user" "pass"
                Mock.oneSeries 64 World0)) = 64%nat /\
  List.length (sleeps (snd (sendToRemoteWriteWithRetry Mock.env500 "http://x" "user" "pass"
                              Mock.oneSeries 64 World0))) = 63%nat.
Proof.
  split.
  - intros w. eexists. split; reflexivity.
  - repeat split; vm_compute; reflexivity.
Qed.

(** C4 at a server that answers 403, three retries allowed: one attempt is
    made, and the terminal error reports four. *)
Theorem terminal_error_reports_configured_attempts :
  fst (sendToRemoteWriteWithRetry Mock.env403 "http://x" "user" "pass"
         Mock.oneSeries 3 World0)
    = Val (Some "failed after 4 attempts, last error: remote_write failed: 403 Forbidden - Forbidden") /\
  calls (snd (sendToRemoteWriteWithRetry Mock.env403 "http://x" "user" "pass"
                Mock.oneSeries 3 World0)) = 1%nat.
Proof. split; reflexivity. Qed.

(** C5 at [attempt = 64]: whatever the random draw, no delay is computed;
    [1 << 63] is negative and [rand.Intn] panics. *)
Theorem retryDelayFunc_panics_at_64 (E : Env) (w : World) :
  retryDelayFunc E 64 w = (Panic "invalid argument to Intn", w).
Proof. apply retryDelayFunc_overflow. split; [lia | reflexivity]. Qed.

(* ===================================================================== *)
(** ** Further properties of the code *)
(* ===================================================================== *)

(** *** Label lookup *)

Lemma getLabelValue_skip (pre rest : list prompb.Label) (name : string) :
  (forall l, In l pre -> prompb.Name l <> name) ->
  getLabelValue (pre ++ rest) name = getLabelValue rest name.
Proof.
  induction pre as [|l pre IH]; intros Hpre; simpl; [reflexivity|].
  destruct (String.eqb_spec (prompb.Name l) name) as [Heq|_].
  - exfalso. apply (Hpre l); [left; reflexivity | exact Heq].
  - apply IH. intros l' Hl'. apply Hpre. right. exact Hl'.
Qed.

(** X1: [getLabelValue] returns the value of the first label with the
    name, whatever labels of that name follow it. *)
Theorem getLabelValue_first_match (pre post : list prompb.Label)
    (l : prompb.Label) (name : string) :
  (forall l', In l' pre -> prompb.Name l' <> name) ->
  prompb.Name l = name ->
  getLabelValue (pre ++ l :: post) name = prompb.Value l.
Proof.
  intros Hpre Hl. rewrite getLabelValue_skip by exact Hpre.
  simpl. rewrite Hl, String.eqb_refl. reflexivity.
Qed.

Lemma getLabelValue_first_match_witness :
  getLabelValue
    ([ {| prompb.Name := "instance"; prompb.Value := "host1" |} ] ++
     {| prompb.Name := "job"; prompb.Value := "a" |} ::
     [ {| prompb.Name := "job"; prompb.Value := "b" |} ]) "job" = "a".
Proof.
  apply (getLabelValue_first_match
           [ {| prompb.Name := "instance"; prompb.Value := "host1" |} ]
           [ {| prompb.Name := "job"; prompb.Value := "b" |} ]
           {| prompb.Name := "job"; prompb.Value := "a" |} "job").
  - intros l' [<-|[]]. discriminate.
  - reflexivity.
Defined.

(** X2: [getLabelValue] returns the empty string exactly when no label
    has the name, or the first one that has it carries an empty value: a
    missing label and an empty one cannot be told apart. *)
Theorem getLabelValue_empty_iff (labels : list prompb.Label) (name : string) :
  getLabelValue labels name = "" <->
  (forall l, In l labels -> prompb.Name l <> name) \/
  (exists pre l post,
     labels = (pre ++ l :: post)%list /\
     (forall l', In l' pre -> prompb.Name l' <> name) /\
     prompb.Name l = name /\ prompb.Value l = "").
Proof.
  split.
  - induction labels as [|l rest IH]; simpl; intros H.
    + left. intros l [].
    + destruct (String.eqb_spec (prompb.Name l) name) as [Heq|Hne].
      * right. exists [], l, rest. repeat split; auto.
      * destruct (IH H) as [Habs | (pre & l0 & post & -> & Hpre & Hn & Hv)].
        -- left. intros l' [<-|Hin]; [exact Hne | apply Habs; exact Hin].
        -- right. exists (l :: pre), l0, post. repeat split; auto.
           intros l' [<-|Hin]; [exact Hne | apply Hpre; exact Hin].
  - intros [Habs | (pre & l & post & -> & Hpre & Hn & Hv)].
    + rewrite <- (app_nil_r labels). rewrite getLabelValue_skip by exact Habs.
      reflexivity.
    + rewrite getLabelValue_skip by exact Hpre.
      simpl. rewrite Hn, String.eqb_refl. exact Hv.
Qed.

(** *** One delivery attempt, case by case *)

(** A batch that can be sent is sent: one request, judged by its answer. *)
Lemma sendToRemoteWrite_sent (E : Env) (url username password : string)
    (series : list prompb.TimeSeries) (data : string) (w : World) :
  sendable E url series data ->
  fst (sendToRemoteWrite E url username password series w)
    = Val (outcomeError (client_Do E (List.length (requests w))
                                     (thePost E url username password data))) /\
  requests (snd (sendToRemoteWrite E url username password series w))
    = thePost E url username password data :: requests w.
Proof.
  intros (Hne & Hs & Hm & Hu).
  assert (Hlen : (Z.of_nat (List.length series) =? 0) = false)
    by (destruct series; [contradiction | reflexivity]).
  unfold sendToRemoteWrite. run. rewrite Hlen.
  match goal with |- context [rangeSeries series [] ?w1] =>
    destruct (rangeSeries_spec series [] w1) as [r (q & _)];
    destruct (rangeSeries series [] w1) as [res w2]
  end.
  cbn [fst snd requests] in *. rewrite Hs in r. subst res. cbn [app].
  rewrite Hm. unfold NewRequestWithContext. rewrite Hu. unfold Do. simpl.
  rewrite q. unfold thePost, outcomeError. simpl.
  destruct (client_Do E _ _) as [resp|e]; simpl;
    [destruct (StatusCode resp >=? 300)|]; split; reflexivity.
Qed.

(** Every way an attempt can go. *)
Lemma sendToRemoteWrite_cases (E : Env) (url username password : string)
    (series : list prompb.TimeSeries) (w : World) :
  (requests (snd (sendToRemoteWrite E url username password series w)) = requests w /\
   (series = [] /\
    fst (sendToRemoteWrite E url username password series w)
      = Val (Some "no time series data to send")
    \/
    series <> [] /\ forallb hasSample series = false /\
    fst (sendToRemoteWrite E url username password series w)
      = Panic "runtime error: index out of range [0] with length 0"
    \/
    series <> [] /\ forallb hasSample series = true /\
    (exists e, Marshal E {| prompb.Timeseries := series |} = inr e /\
       fst (sendToRemoteWrite E url username password series w)
         = Val (Some ("failed to marshal protobuf: " ++ e)))
    \/
    series <> [] /\ forallb hasSample series = true /\
    (exists data e, Marshal E {| prompb.Timeseries := series |} = inl data /\
       url_Parse E url = Some e /\
       fst (sendToRemoteWrite E url username password series w)
         = Val (Some ("failed to create HTTP request: " ++ e)))))
  \/
  (exists data,
     sendable E url series data /\
     fst (sendToRemoteWrite E url username password series w)
       = Val (outcomeError (client_Do E (List.length (requests w))
                                        (thePost E url username password data))) /\
     requests (snd (sendToRemoteWrite E url username password series w))
       = thePost E url username password data :: requests w).
Proof.
  destruct series as [|ts rest] eqn:Hser.
  { left. split; [reflexivity|]. left. split; reflexivity. }
  rewrite <- Hser.
  assert (Hne : series <> []) by (rewrite Hser; discriminate).
  assert (Hlen : (Z.of_nat (List.length series) =? 0) = false)
    by (rewrite Hser; reflexivity).
  clear Hser.
  destruct (forallb hasSample series) eqn:Hs.
  - destruct (Marshal E {| prompb.Timeseries := series |}) as [data|e] eqn:Hm.
    + destruct (url_Parse E url) as [e|] eqn:Hu.
      * left. unfold sendToRemoteWrite. run. rewrite Hlen.
        match goal with |- context [rangeSeries series [] ?w1] =>
          destruct (rangeSeries_spec series [] w1) as [r (q & _)];
          destruct (rangeSeries series [] w1) as [res w2]
        end.
        cbn [fst snd requests] in *. rewrite Hs in r. subst res. cbn [app].
        rewrite Hm. unfold NewRequestWithContext. rewrite Hu. simpl.
        split; [exact q|]. right. right. right.
        split; [exact Hne|]. split; [reflexivity|].
        exists data, e. repeat split.
      * right. exists data.
        assert (Hok : sendable E url series data) by (repeat split; assumption).
        split; [exact Hok|].
        apply sendToRemoteWrite_sent. exact Hok.
    + left.
      destruct (sendToRemoteWrite_marshal_error E url username password series e w
                  Hne Hs Hm) as [Hr Hq].
      split; [exact Hq|]. right. right. left.
      split; [exact Hne|]. split; [reflexivity|]. exists e. split; [reflexivity | exact Hr].
  - left. unfold sendToRemoteWrite. run. rewrite Hlen.
    match goal with |- context [rangeSeries series [] ?w1] =>
      destruct (rangeSeries_spec series [] w1) as [r (q & _)];
      destruct (rangeSeries series [] w1) as [res w2]
    end.
    cbn [fst snd requests] in *. rewrite Hs in r. subst res. simpl.
    split; [exact q|]. right. left. repeat split. exact Hne.
Qed.

Lemma sendToRemoteWrite_returns (E : Env) (url username password : string)
    (series : list prompb.TimeSeries) (w : World) :
  forallb hasSample series = true ->
  exists e,
    fst (sendToRemoteWrite E url username password series w) = Val e /\
    (List.length (requests (snd (sendToRemoteWrite E url username password series w)))
     <= S (List.length (requests w)))%nat.
Proof.
  intros Hs.
  destruct (sendToRemoteWrite_cases E url username password series w)
    as [[Hq [[_ Hr] | [(_ & Hf & _) | [(_ & _ & e & _ & Hr) | (_ & _ & d & e & _ & _ & Hr)]]]]
       | (data & _ & Hr & Hq)].
  - eexists. split; [exact Hr | rewrite Hq; lia].
  - congruence.
  - eexists. split; [exact Hr | rewrite Hq; lia].
  - eexists. split; [exact Hr | rewrite Hq; lia].
  - eexists. split; [exact Hr | rewrite Hq; simpl; lia].
Qed.

(** An attempt that reports success sent its request and got an answer
    below 300. *)
Lemma sendToRemoteWrite_nil_inv (E : Env) (url username password : string)
    (series : list prompb.TimeSeries) (w : World) :
  fst (sendToRemoteWrite E url username password series w) = Val None ->
  exists data resp,
    sendable E url series data /\
    requests (snd (sendToRemoteWrite E url username password series w))
      = thePost E url username password data :: requests w /\
    client_Do E (List.length (requests w)) (thePost E url username password data)
      = inl resp /\
    StatusCode resp < 300.
Proof.
  intros Hnil.
  destruct (sendToRemoteWrite_cases E url username password series w)
    as [[_ [[_ Hr] | [(_ & _ & Hr) | [(_ & _ & e & _ & Hr) | (_ & _ & d & e & _ & _ & Hr)]]]]
       | (data & Hok & Hr & Hq)];
    try (rewrite Hr in Hnil; discriminate).
  rewrite Hr in Hnil. unfold outcomeError in Hnil.
  destruct (client_Do E _ _) as [resp|e] eqn:Hdo; [|discriminate].
  destruct (Z.geb_spec (StatusCode resp) 300); [discriminate|].
  exists data, resp. split; [exact Hok|]. split; [exact Hq|].
  split; [exact Hdo | assumption].
Qed.

(** X3: an attempt returns nil only if the batch could be sent, exactly
    one request (the POST for the serialized batch) was handed to the
    client, and the answer to it carried a status code below 300. *)
Theorem sendToRemoteWrite_success_means_delivered (E : Env)
    (url username password : string) (series : list prompb.TimeSeries) (w : World) :
  fst (sendToRemoteWrite E url username password series w) = Val None ->
  exists data resp,
    sendable E url series data /\
    requests (snd (sendToRemoteWrite E url username password series w))
      = thePost E url username password data :: requests w /\
    remoteWritePost E url username password data (thePost E url username password data) /\
    client_Do E (List.length (requests w)) (thePost E url username password data)
      = inl resp /\
    StatusCode resp < 300.
Proof.
  intros Hnil.
  destruct (sendToRemoteWrite_nil_inv E url username password series w Hnil)
    as (data & resp & Hok & Hq & Hdo & Hlt).
  exists data, resp. split; [exact Hok|]. split; [exact Hq|].
  split; [repeat split|]. split; assumption.
Qed.

Lemma sendToRemoteWrite_success_means_delivered_witness :
  exists data resp,
    sendable Mock.env200 "http://x" Mock.oneSeries data /\
    requests (snd (sendToRemoteWrite Mock.env200 "http://x" "user" "pass" Mock.oneSeries World0))
      = thePost Mock.env200 "http://x" "user" "pass" data :: requests World0 /\
    remoteWritePost Mock.env200 "http://x" "user" "pass" data
                    (thePost Mock.env200 "http://x" "user" "pass" data) /\
    client_Do Mock.env200 (List.length (requests World0))
              (thePost Mock.env200 "http://x" "user" "pass" data) = inl resp /\
    StatusCode resp < 300.
Proof.
  apply (sendToRemoteWrite_success_means_delivered Mock.env200 "http://x" "user" "pass"
           Mock.oneSeries World0).
  reflexivity.
Defined.

(** X4: an attempt hands the client at most one request, and none unless
    the batch is non-empty, every series has a sample, the batch
    serializes and the URL is accepted; the request is then the POST for
    the serialized batch. *)
Theorem sendToRemoteWrite_at_most_one_request (E : Env)
    (url username password : string) (series : list prompb.TimeSeries) (w : World) :
  requests (snd (sendToRemoteWrite E url username password series w)) = requests w \/
  exists data,
    sendable E url series data /\
    requests (snd (sendToRemoteWrite E url username password series w))
      = thePost E url username password data :: requests w.
Proof.
  destruct (sendToRemoteWrite_cases E url username password series w)
    as [[Hq _] | (data & Hok & _ & Hq)].
  - left. exact Hq.
  - right. exists data. split; assumption.
Qed.

(** X5: when the URL is rejected at request creation, the attempt fails
    with that error after serializing, and no request reaches the client. *)
Theorem sendToRemoteWrite_rejected_url (E : Env) (url username password : string)
    (series : list prompb.TimeSeries) (data e : string) (w : World) :
  series <> [] ->
  forallb hasSample series = true ->
  Marshal E {| prompb.Timeseries := series |} = inl data ->
  url_Parse E url = Some e ->
  fst (sendToRemoteWrite E url username password series w)
    = Val (Some ("failed to create HTTP request: " ++ e)) /\
  requests (snd (sendToRemoteWrite E url username password series w)) = requests w.
Proof.
  intros Hne Hs Hm Hu.
  destruct (sendToRemoteWrite_cases E url username password series w)
    as [[Hq [[He _] | [(_ & Hf & _) | [(_ & _ & e' & Hm' & _) | (_ & _ & d & e' & Hm' & Hu' & Hr)]]]]
       | (d & (_ & _ & _ & Hu') & _)]; try congruence.
  split; [|exact Hq]. rewrite Hr. congruence.
Qed.

(** *** The retry loop, for every course of the attempts *)

Section RetryCourse.

Context (E : Env) (url username password : string)
        (series : list prompb.TimeSeries).

(** The head of an iteration, with all it does to the world. *)
Lemma backoff_step_world (maxRetries attempt : Z) (w : World) :
  0 <= attempt <= 63 ->
  exists w1 ds1,
    (if attempt >? 0
     then bind (retryDelayFunc E attempt) (fun delay =>
            bind (logf (LogRetrying delay (attempt + 1) (Go.wrap64 (maxRetries + 1))))
                 (fun _ => time_Sleep delay))
     else ret tt) w = (Val tt, w1) /\
    calls w1 = calls w /\ requests w1 = requests w /\
    sleeps w1 = (ds1 ++ sleeps w)%list /\
    List.length ds1 = (if (attempt =? 0)%Z then 0 else 1)%nat /\
    Forall boundedDelay ds1 /\
    draws w1 = (draws w + List.length ds1)%nat.
Proof.
  intros Ha. destruct (Z.gtb_spec attempt 0) as [Hpos|Hzero].
  - destruct (retryDelayFunc_bounded E attempt w) as (d & Hd & Hbd); [lia|].
    unfold bind at 1. rewrite Hd. run.
    eexists _, [d]. split; [reflexivity|]. simpl.
    destruct (Z.eqb_spec attempt 0); [lia|]. repeat split; auto. lia.
  - exists w, []. assert (attempt = 0) as -> by lia. simpl.
    repeat split; auto.
Qed.

(** A loop left by [return nil] ends on an attempt that returned nil. *)
Lemma retryLoop_returnNil_inv (maxRetries : Z) :
  forall (remaining : nat) (attempt : Z) (lastErr : Go.error) (w w' : World),
    retryLoop E url username password series maxRetries remaining attempt lastErr w
      = (Val ReturnNil, w') ->
    exists w0,
      fst (sendToRemoteWrite E url username password series w0) = Val None /\
      requests w' = requests (snd (sendToRemoteWrite E url username password series w0)).
Proof.
  induction remaining as [|r IH]; intros attempt lastErr w w' H.
  - simpl in H. discriminate.
  - cbn [retryLoop] in H. unfold bind at 1 in H.
    match type of H with context [(if attempt >? 0 then ?a else ?b) w] =>
      destruct ((if attempt >? 0 then a else b) w) as [[[]|msg] w1]
    end; [|discriminate].
    unfold bind at 1 in H.
    destruct (sendToRemoteWrite E url username password series w1)
      as [[[m|]|msg] w2] eqn:Hsend; [| |discriminate].
    + revert H. run. destruct (nonRetryable m); intros H; [discriminate|].
      apply IH in H. exact H.
    + exists w1. rewrite Hsend. split; [reflexivity|].
      revert H. run. destruct (attempt >? 0); simpl; intros H; inversion H; reflexivity.
Qed.

(** With a sample in every series and no attempt index beyond 63, the
    loop returns, and what it did is bounded by the attempts it made. *)
Lemma retryLoop_bounded (maxRetries : Z) :
  forallb hasSample series = true ->
  forall (remaining : nat) (attempt : Z) (lastErr : Go.error) (w : World),
    0 <= attempt -> attempt + Z.of_nat remaining <= 64 ->
    exists x w' ds k,
      retryLoop E url username password series maxRetries remaining attempt lastErr w
        = (Val x, w') /\
      calls w' = (calls w + k)%nat /\
      (k <= remaining)%nat /\ (remaining <> O -> k <> O) /\
      sleeps w' = (ds ++ sleeps w)%list /\
      List.length ds = (k - (if (attempt =? 0)%Z then 1 else 0))%nat /\
      Forall boundedDelay ds /\
      draws w' = (draws w + List.length ds)%nat /\
      (List.length (requests w') <= List.length (requests w) + k)%nat.
Proof.
  intros Hs. induction remaining as [|r IH]; intros attempt lastErr w H0 Hb.
  - exists (Done lastErr), w, [], O. simpl.
    destruct (attempt =? 0); repeat split; auto; lia.
  - cbn [retryLoop].
    destruct (backoff_step_world maxRetries attempt w)
      as (w1 & ds1 & Hrun1 & Hc1 & Hq1 & Hs1 & Hl1 & Hf1 & Hd1); [lia|].
    unfold bind at 1. rewrite Hrun1.
    destruct (sendToRemoteWrite_returns E url username password series w1 Hs)
      as (e & He & Hq2).
    destruct (sendToRemoteWrite_effects E url username password series w1)
      as (Hc2 & Hs2 & Hd2).
    unfold bind at 1.
    destruct (sendToRemoteWrite E url username password series w1) as [res w2].
    cbn [fst snd] in *. subst res.
    assert (Hone : List.length ds1 = (1 - (if (attempt =? 0)%Z then 1 else 0))%nat)
      by (rewrite Hl1; destruct (attempt =? 0)%Z; reflexivity).
    destruct e as [m|].
    + run. destruct (nonRetryable m).
      * run. eexists _, _, ds1, 1%nat. split; [reflexivity|]. simpl.
        repeat split; auto; try congruence; rewrite <- ?Hq1; lia.
      * match goal with |- context [retryLoop _ _ _ _ _ _ r (attempt + 1) (Some m) ?w3] =>
          destruct (IH (attempt + 1) (Some m) w3)
            as (x & w' & ds & k & Hloop & Hc & Hk & _ & Hsl & Hl & Hf & Hd & Hq);
            [lia | lia |]
        end.
        rewrite Hloop. cbn [calls sleeps draws requests] in *.
        destruct (Z.eqb_spec (attempt + 1) 0) as [|_]; [lia|].
        exists x, w', (ds ++ ds1)%list, (S k). split; [reflexivity|].
        split; [lia|]. split; [lia|]. split; [discriminate|].
        split; [rewrite Hsl, Hs2, Hs1, app_assoc; reflexivity|].
        split; [rewrite length_app, Hl, Hl1; destruct (attempt =? 0)%Z; lia|].
        split; [apply Forall_app; split; assumption|].
        split; [rewrite Hd, Hd2, Hd1, length_app; lia|].
        rewrite <- Hq1. lia.
    + run. clear Hrun1.
      destruct (attempt >? 0); simpl;
        (eexists ReturnNil, _, ds1, 1%nat; split; [reflexivity|]; simpl;
         repeat split; auto; try congruence; rewrite <- ?Hq1; lia).
Qed.

End RetryCourse.

Lemma sendToRemoteWrite_rejected_url_witness :
  fst (sendToRemoteWrite Double.envBadURL ":" "user" "pass" Mock.oneSeries World0)
    = Val (Some ("failed to create HTTP request: " ++ "missing protocol scheme")) /\
  requests (snd (sendToRemoteWrite Double.envBadURL ":" "user" "pass" Mock.oneSeries World0))
    = requests World0.
Proof.
  apply (sendToRemoteWrite_rejected_url Double.envBadURL ":" "user" "pass"
           Mock.oneSeries "s" "missing protocol scheme" World0).
  - discriminate.
  - reflexivity.
  - reflexivity.
  - reflexivity.
Defined.

(** *** The retry wrapper, for every course of the attempts *)

(** X6: the wrapper returns nil only if the last request it made was the
    POST of a sendable batch and was answered with a status code below
    300, whatever [maxRetries] is. *)
Theorem retry_success_means_delivered (E : Env) (url username password : string)
    (series : list prompb.TimeSeries) (maxRetries : Z) (w w' : World) :
  sendToRemoteWriteWithRetry E url username password series maxRetries w = (Val None, w') ->
  exists data resp rest,
    sendable E url series data /\
    requests w' = thePost E url username password data :: rest /\
    client_Do E (List.length rest) (thePost E url username password data) = inl resp /\
    StatusCode resp < 300.
Proof.
  unfold sendToRemoteWriteWithRetry, bind. intros H.
  destruct (retryLoop E url username password series maxRetries
              (Z.to_nat (maxRetries + 1)) 0 None w) as [[[|lastErr]|msg] w1] eqn:Hloop;
    try discriminate.
  inversion H; subst w1.
  destruct (retryLoop_returnNil_inv E url username password series maxRetries
              _ _ _ _ _ Hloop) as (w0 & Hnil & Hq).
  destruct (sendToRemoteWrite_nil_inv E url username password series w0 Hnil)
    as (data & resp & Hok & Hq0 & Hdo & Hlt).
  exists data, resp, (requests w0).
  split; [exact Hok|]. split; [rewrite Hq; exact Hq0|]. split; assumption.
Qed.

Lemma retry_success_means_delivered_witness :
  exists data resp rest,
    sendable (Double.envFlaky 2) "http://x" Mock.oneSeries data /\
    requests (snd (sendToRemoteWriteWithRetry (Double.envFlaky 2) "http://x" "user" "pass"
                     Mock.oneSeries 3 World0))
      = thePost (Double.envFlaky 2) "http://x" "user" "pass" data :: rest /\
    client_Do (Double.envFlaky 2) (List.length rest)
              (thePost (Double.envFlaky 2) "http://x" "user" "pass" data) = inl resp /\
    StatusCode resp < 300.
Proof.
  apply (retry_success_means_delivered (Double.envFlaky 2) "http://x" "user" "pass"
           Mock.oneSeries 3 World0).
  vm_compute. reflexivity.
Defined.

(** X7: when the first attempt succeeds the wrapper returns nil at once:
    it leaves the world exactly as that one attempt left it (no sleep, no
    further request, not even a log line of its own). *)
Theorem retry_first_attempt_succeeds (E : Env) (url username password : string)
    (series : list prompb.TimeSeries) (maxRetries : Z) (w : World) :
  0 <= maxRetries ->
  fst (sendToRemoteWrite E url username password series w) = Val None ->
  sendToRemoteWriteWithRetry E url username password series maxRetries w
    = (Val None, snd (sendToRemoteWrite E url username password series w)).
Proof.
  intros HN Hnil. unfold sendToRemoteWriteWithRetry.
  destruct (Z.to_nat (maxRetries + 1)) as [|k] eqn:Hk; [lia|].
  cbn [retryLoop]. change (0 >? 0) with false. unfold bind, ret.
  destruct (sendToRemoteWrite E url username password series w) as [res w1].
  cbn [fst snd] in *. subst res. reflexivity.
Qed.

Lemma retry_first_attempt_succeeds_witness :
  sendToRemoteWriteWithRetry Mock.env200 "http://x" "user" "pass" Mock.oneSeries 3 World0
    = (Val None,
       snd (sendToRemoteWrite Mock.env200 "http://x" "user" "pass" Mock.oneSeries World0)).
Proof.
  apply (retry_first_attempt_succeeds Mock.env200 "http://x" "user" "pass"
           Mock.oneSeries 3 World0).
  - lia.
  - reflexivity.
Defined.

(** X8: with a negative [maxRetries] the wrapper makes no attempt and
    touches nothing, and still returns an error: its text counts
    [maxRetries + 1] attempts and gives the last error as [<nil>]. *)
Theorem retry_negative_maxRetries (E : Env) (url username password : string)
    (series : list prompb.TimeSeries) (maxRetries : Z) (w : World) :
  maxRetries < 0 ->
  sendToRemoteWriteWithRetry E url username password series maxRetries w
    = (Val (Some ("failed after " ++ Go.verb_d (Go.wrap64 (maxRetries + 1))
                  ++ " attempts, last error: <nil>")), w).
Proof.
  intros HN. unfold sendToRemoteWriteWithRetry.
  replace (Z.to_nat (maxRetries + 1)) with O by lia. reflexivity.
Qed.

Lemma retry_negative_maxRetries_witness :
  sendToRemoteWriteWithRetry Mock.env200 "http://x" "user" "pass" Mock.oneSeries (-1) World0
    = (Val (Some "failed after 0 attempts, last error: <nil>"), World0).
Proof.
  apply (retry_negative_maxRetries Mock.env200 "http://x" "user" "pass"
           Mock.oneSeries (-1) World0).
  lia.
Defined.

(** X9: the wrapper does not recover from the index panic of an attempt:
    with a series without samples in the list it panics in its first
    attempt, before any sleep and any request. *)
Theorem retry_panic_propagates (E : Env) (url username password : string)
    (series : list prompb.TimeSeries) (maxRetries : Z) (w : World) :
  0 <= maxRetries ->
  Exists (fun ts => prompb.Samples ts = []) series ->
  fst (sendToRemoteWriteWithRetry E url username password series maxRetries w)
    = Panic "runtime error: index out of range [0] with length 0" /\
  calls (snd (sendToRemoteWriteWithRetry E url username password series maxRetries w))
    = S (calls w) /\
  sleeps (snd (sendToRemoteWriteWithRetry E url username password series maxRetries w))
    = sleeps w /\
  requests (snd (sendToRemoteWriteWithRetry E url username password series maxRetries w))
    = requests w.
Proof.
  intros HN Hex. apply hasSample_some_empty in Hex.
  destruct (sendToRemoteWrite_effects E url username password series w) as (Hc & Hs & _).
  destruct (sendToRemoteWrite_cases E url username password series w)
    as [[Hq [[-> _] | [(_ & _ & Hr) | [(_ & Ht & _) | (_ & Ht & _)]]]]
       | (data & (_ & Ht & _) & _)]; try congruence; try discriminate.
  unfold sendToRemoteWriteWithRetry.
  destruct (Z.to_nat (maxRetries + 1)) as [|k] eqn:Hk; [lia|].
  cbn [retryLoop]. change (0 >? 0) with false. unfold bind, ret.
  destruct (sendToRemoteWrite E url username password series w) as [res w1].
  cbn [fst snd] in *. subst res. cbn [fst snd]. auto.
Qed.

Lemma retry_panic_propagates_witness :
  fst (sendToRemoteWriteWithRetry Mock.env200 "http://x" "user" "pass"
         (Mock.oneSeries ++ [Mock.noSample]) 3 World0)
    = Panic "runtime error: index out of range [0] with length 0" /\
  calls (snd (sendToRemoteWriteWithRetry Mock.env200 "http://x" "user" "pass"
                (Mock.oneSeries ++ [Mock.noSample]) 3 World0)) = S (calls World0) /\
  sleeps (snd (sendToRemoteWriteWithRetry Mock.env200 "http://x" "user" "pass"
                 (Mock.oneSeries ++ [Mock.noSample]) 3 World0)) = sleeps World0 /\
  requests (snd (sendToRemoteWriteWithRetry Mock.env200 "http://x" "user" "pass"
                   (Mock.oneSeries ++ [Mock.noSample]) 3 World0)) = requests World0.
Proof.
  apply (retry_panic_propagates Mock.env200 "http://x" "user" "pass"
           (Mock.oneSeries ++ [Mock.noSample]) 3 World0).
  - lia.
  - right. left. reflexivity.
Defined.

(** X10: with a sample in every series and at most 63 retries allowed the
    wrapper never panics: it returns, after at most [maxRetries + 1]
    attempts (at least one when [maxRetries >= 0]), with one sleep of 1 to
    30 whole seconds and one random draw before every attempt but the
    first, and with at most one request per attempt. *)
Theorem retry_returns_within_bounds (E : Env) (url username password : string)
    (series : list prompb.TimeSeries) (maxRetries : Z) (w : World) :
  maxRetries <= 63 ->
  Forall (fun ts => prompb.Samples ts <> []) series ->
  exists e w' ds k,
    sendToRemoteWriteWithRetry E url username password series maxRetries w = (Val e, w') /\
    calls w' = (calls w + k)%nat /\
    (k <= Z.to_nat (maxRetries + 1))%nat /\
    (0 <= maxRetries -> (1 <= k)%nat) /\
    sleeps w' = (ds ++ sleeps w)%list /\
    List.length ds = (k - 1)%nat /\
    Forall boundedDelay ds /\
    draws w' = (draws w + (k - 1))%nat /\
    (List.length (requests w') <= List.length (requests w) + k)%nat.
Proof.
  intros HN Hall. apply hasSample_all in Hall.
  destruct (retryLoop_bounded E url username password series maxRetries Hall
              (Z.to_nat (maxRetries + 1)) 0 None w)
    as (x & w' & ds & k & Hloop & Hc & Hk & Hk1 & Hs & Hl & Hf & Hd & Hq); [lia | lia |].
  change (0 =? 0) with true in Hl. cbv iota in Hl.
  unfold sendToRemoteWriteWithRetry, bind. rewrite Hloop.
  destruct x as [|lastErr]; unfold ret;
    (eexists _, w', ds, k; split; [reflexivity|];
     repeat split; auto; try lia).
Qed.

Lemma retry_returns_within_bounds_witness :
  exists e w' ds k,
    sendToRemoteWriteWithRetry Mock.env500 "http://x" "user" "pass" Mock.oneSeries 3 World0
      = (Val e, w') /\
    calls w' = (calls World0 + k)%nat /\
    (k <= Z.to_nat (3 + 1))%nat /\
    (0 <= 3 -> (1 <= k)%nat) /\
    sleeps w' = (ds ++ sleeps World0)%list /\
    List.length ds = (k - 1)%nat /\
    Forall boundedDelay ds /\
    draws w' = (draws World0 + (k - 1))%nat /\
    (List.length (requests w') <= List.length (requests World0) + k)%nat.
Proof.
  apply (retry_returns_within_bounds Mock.env500 "http://x" "user" "pass"
           Mock.oneSeries 3 World0).
  - lia.
  - repeat constructor. discriminate.
Defined.

Section Recovery.

Context (E : Env) (url username password : string)
        (series : list prompb.TimeSeries) (data : string).

(** A loop whose next [k] round trips fail retryably and whose round trip
    after them succeeds returns nil after [k + 1] attempts. *)
Lemma retryLoop_recovers (maxRetries : Z) :
  sendable E url series data ->
  forall (k remaining : nat) (attempt : Z) (lastErr : Go.error) (w : World),
    0 <= attempt -> attempt + Z.of_nat k <= 63 -> (k < remaining)%nat ->
    (forall i, (i < k)%nat ->
       exists m,
         outcomeError (client_Do E (List.length (requests w) + i)
                                 (thePost E url username password data)) = Some m /\
         nonRetryable m = false) ->
    outcomeError (client_Do E (List.length (requests w) + k)
                            (thePost E url username password data)) = None ->
    exists w' ds,
      retryLoop E url username password series maxRetries remaining attempt lastErr w
        = (Val ReturnNil, w') /\
      calls w' = (calls w + S k)%nat /\
      sleeps w' = (ds ++ sleeps w)%list /\
      List.length ds = (S k - (if (attempt =? 0)%Z then 1 else 0))%nat /\
      Forall boundedDelay ds /\
      List.length (requests w') = (List.length (requests w) + S k)%nat.
Proof.
  intros Hok. induction k as [|k IH]; intros remaining attempt lastErr w H0 Hb Hrem Hfail Hsucc;
    (destruct remaining as [|r]; [lia|]); cbn [retryLoop];
    destruct (backoff_step_world E maxRetries attempt w)
      as (w1 & ds1 & Hrun1 & Hc1 & Hq1 & Hs1 & Hl1 & Hf1 & _); try lia;
    unfold bind at 1; rewrite Hrun1;
    destruct (sendToRemoteWrite_sent E url username password series data w1 Hok)
      as (Hres & Hreq);
    destruct (sendToRemoteWrite_effects E url username password series w1)
      as (Hc2 & Hs2 & _);
    unfold bind at 1;
    destruct (sendToRemoteWrite E url username password series w1) as [res w2];
    cbn [fst snd] in *; subst res; rewrite Hq1 in *.
  - rewrite Nat.add_0_r in Hsucc. rewrite Hsucc. run. clear Hrun1.
    destruct (attempt >? 0); simpl;
      (eexists _, ds1; split; [reflexivity|]; simpl;
       rewrite Hreq, Hl1; simpl;
       repeat split; auto; try congruence; try lia;
       destruct (attempt =? 0)%Z; reflexivity).
  - destruct (Hfail O) as (m & Hm & Hnr); [lia|].
    rewrite Nat.add_0_r in Hm. rewrite Hm. run. rewrite Hnr.
    match goal with |- context [retryLoop _ _ _ _ _ _ r (attempt + 1) (Some m) ?w3] =>
      destruct (IH r (attempt + 1) (Some m) w3)
        as (w' & ds & Hloop & Hc & Hsl & Hl & Hf & Hq); try lia
    end.
    + intros i Hi. cbn [requests]. rewrite Hreq. simpl.
      destruct (Hfail (S i)) as (m' & Hm' & Hnr'); [lia|].
      exists m'. rewrite <- Nat.add_succ_r. split; assumption.
    + cbn [requests]. rewrite Hreq. simpl. rewrite <- Nat.add_succ_r. exact Hsucc.
    + rewrite Hloop. cbn [calls sleeps requests] in *.
      destruct (Z.eqb_spec (attempt + 1) 0) as [|_]; [lia|].
      exists w', (ds ++ ds1)%list. split; [reflexivity|].
      split; [lia|].
      split; [rewrite Hsl, Hs2, Hs1, app_assoc; reflexivity|].
      split; [rewrite length_app, Hl, Hl1; destruct (attempt =? 0)%Z; lia|].
      split; [apply Forall_app; split; assumption|].
      rewrite Hq, Hreq. simpl. lia.
Qed.

End Recovery.

(** X11: the wrapper rides out transient failures.  For a sendable batch,
    when the next [k] round trips (with [k <= 63] and [k <= maxRetries])
    each end in a failure whose message contains none of 400, 401, 403,
    404 and the round trip after them is answered below 300, the wrapper
    returns nil after exactly [k + 1] attempts, [k + 1] requests and [k]
    sleeps of 1 to 30 whole seconds. *)
Theorem retry_recovers_from_transient_failures (E : Env)
    (url username password : string) (series : list prompb.TimeSeries)
    (data : string) (maxRetries : Z) (k : nat) (w : World) :
  sendable E url series data ->
  (k <= 63)%nat -> Z.of_nat k <= maxRetries ->
  (forall i, (i < k)%nat ->
     exists m,
       outcomeError (client_Do E (List.length (requests w) + i)
                               (thePost E url username password data)) = Some m /\
       nonRetryable m = false) ->
  outcomeError (client_Do E (List.length (requests w) + k)
                          (thePost E url username password data)) = None ->
  exists w' ds,
    sendToRemoteWriteWithRetry E url username password series maxRetries w
      = (Val None, w') /\
    calls w' = (calls w + S k)%nat /\
    List.length (requests w') = (List.length (requests w) + S k)%nat /\
    sleeps w' = (ds ++ sleeps w)%list /\
    List.length ds = k /\
    Forall boundedDelay ds.
Proof.
  intros Hok Hk HN Hfail Hsucc.
  destruct (retryLoop_recovers E url username password series data maxRetries Hok
              k (Z.to_nat (maxRetries + 1)) 0 None w)
    as (w' & ds & Hloop & Hc & Hs & Hl & Hf & Hq); try lia; try assumption.
  exists w', ds. unfold sendToRemoteWriteWithRetry, bind. rewrite Hloop.
  split; [reflexivity|]. split; [exact Hc|]. split; [exact Hq|].
  split; [exact Hs|]. split; [|exact Hf].
  rewrite Hl. simpl. lia.
Qed.

Lemma retry_recovers_from_transient_failures_witness :
  exists w' ds,
    sendToRemoteWriteWithRetry (Double.envFlaky 2) "http://x" "user" "pass"
                               Mock.oneSeries 3 World0 = (Val None, w') /\
    calls w' = (calls World0 + 3)%nat /\
    List.length (requests w') = (List.length (requests World0) + 3)%nat /\
    sleeps w' = (ds ++ sleeps World0)%list /\
    List.length ds = 2%nat /\
    Forall boundedDelay ds.
Proof.
  apply (retry_recovers_from_transient_failures (Double.envFlaky 2) "http://x" "user" "pass"
           Mock.oneSeries "s" 3 2 World0).
  - repeat split. discriminate.
  - lia.
  - lia.
  - intros i Hi. exists "remote_write failed: 503 Service Unavailable - busy".
    destruct i as [|[|i]]; [split; reflexivity | split; reflexivity | lia].
  - reflexivity.
Defined.

(** *** The backoff delay at its ends *)

(** X12: from the sixth retry to the sixty-third the delay is exactly 30
    seconds, whatever the random draw: the jitter is cut off by the cap. *)
Theorem retryDelayFunc_capped (E : Env) (attempt : Z) (w : World) :
  6 <= attempt <= 63 ->
  retryDelayFunc E attempt w = (Val (30 * Go.Second), drew w).
Proof.
  intros Ha.
  destruct (retryDelayFunc_in_range E attempt w) as (x & Hrun & _ & Hx); [lia|].
  assert (2 ^ 5 <= 2 ^ (attempt - 1)) by (apply Z.pow_le_mono_r; lia).
  change (2 ^ 5) with 32 in *.
  rewrite Hrun. replace (Z.min 30 x) with 30 by lia. reflexivity.
Qed.

Lemma retryDelayFunc_capped_witness :
  retryDelayFunc Mock.env500 6 World0 = (Val (30 * Go.Second), drew World0).
Proof. apply (retryDelayFunc_capped Mock.env500 6 World0). lia. Defined.

(** X13: called with an attempt index of 0 or below, [retryDelayFunc]
    panics on the negative shift count, before it draws a random number;
    the loop guards the call with [attempt > 0]. *)
Theorem retryDelayFunc_negative_shift (E : Env) (attempt : Z) (w : World) :
  - 2 ^ 63 < attempt <= 0 ->
  retryDelayFunc E attempt w = (Panic "runtime error: negative shift amount", w).
Proof.
  intros Ha.
  assert (H263 : 2 ^ 63 = 9223372036854775808) by reflexivity.
  unfold retryDelayFunc, shift, Go.shl.
  rewrite (wrap64_small (attempt - 1)) by lia.
  destruct (Z.ltb_spec (attempt - 1) 0); [reflexivity | lia].
Qed.

Lemma retryDelayFunc_negative_shift_witness :
  retryDelayFunc Mock.env500 0 World0
    = (Panic "runtime error: negative shift amount", World0).
Proof.
  apply (retryDelayFunc_negative_shift Mock.env500 0 World0).
  split; [reflexivity | lia].
Defined.

(** *** The result parser, beyond the decoded array *)



(** X15: [runLibrespeed] never panics and returns either a result with a
    nil error or no result with an error, never both and never neither;
    it makes no request, takes no sleep and draws no random number. *)
Theorem runLibrespeed_result_xor_error (E : Env) (cliPath localJSONPath : string)
    (serverID : option Z) (w : World) :
  ((exists result,
      fst (runLibrespeed E cliPath localJSONPath serverID w) = Val (Some result, None)) \/
   (exists m,
      fst (runLibrespeed E cliPath localJSONPath serverID w) = Val (None, Some m))) /\
  quiet w (snd (runLibrespeed E cliPath localJSONPath serverID w)).
Proof.
  unfold runLibrespeed. run.
  destruct (Run E cliPath _) as [output [e|]]; simpl.
  - split; [right; eexists; reflexivity | repeat split].
  - destruct (json_Unmarshal E output) as [[|result rest]|e]; simpl;
      (split; [|repeat split]); [right | left | right]; eexists; reflexivity.
Qed.

(** X16: without a local JSON path the server ID is not used: the tool is
    run, and the outcome is, as if no server ID had been given. *)
Theorem runLibrespeed_server_needs_local_json (E : Env) (cliPath : string)
    (serverID : option Z) (w : World) :
  runLibrespeed E cliPath "" serverID w = runLibrespeed E cliPath "" None w.
Proof. destruct serverID; reflexivity. Qed.

(* ===================================================================== *)
(** ** The program around the pipeline: properties *)
(* ===================================================================== *)

Ltac runP := unfold bindP, retP, note, eprint, prependPATH, fsop, liftRes, liftM; simpl.

(** *** Validation *)

(** X17: [validateLogFilePath] accepts a path exactly when it is not
    empty and [os.Stat] finds a directory at [filepath.Dir] of it. *)
Theorem validateLogFilePath_accepts_iff (H : Host) (path : string) :
  validateLogFilePath H path = Val None <->
  path <> "" /\ os_Stat H (filepath_Dir H path) = StatInfo true.
Proof.
  unfold validateLogFilePath.
  destruct (String.eqb_spec path "") as [->|Hne].
  - split; [discriminate | intros [Hne _]; contradiction].
  - destruct (os_Stat H (filepath_Dir H path)) as [[|]|[|]]; simpl;
      (split; [intros Hv | intros [_ Hs]]); try discriminate;
      [split; [exact Hne | reflexivity] | reflexivity].
Qed.

(** X18: when [os.Stat] of the directory fails with an error other than
    not-exist (permission denied, say), [validateLogFilePath] does not
    return an error: it panics on the nil [FileInfo]. *)
Theorem validateLogFilePath_panics_on_stat_error (H : Host) (path : string) :
  path <> "" ->
  os_Stat H (filepath_Dir H path) = StatError false ->
  validateLogFilePath H path
    = Panic "runtime error: invalid memory address or nil pointer dereference".
Proof.
  intros Hne Hs. unfold validateLogFilePath.
  destruct (String.eqb_spec path "") as [->|_]; [contradiction|].
  rewrite Hs. reflexivity.
Qed.

Lemma validateLogFilePath_panics_on_stat_error_witness :
  validateLogFilePath Double.hostDenied "/root/logs/run.log"
    = Panic "runtime error: invalid memory address or nil pointer dereference".
Proof.
  apply (validateLogFilePath_panics_on_stat_error Double.hostDenied "/root/logs/run.log").
  - discriminate.
  - reflexivity.
Defined.

(** What [validateConfiguration] does, in one equation. *)
Lemma validateConfiguration_run (H : Host) (url username password : string) (p : Process) :
  (exists m, validateConfiguration H url username password p = (Val (Some m), p)) \/
  (validateConfiguration H url username password p
     = (Val None, snd (note (NoteConfigValidated url username) p)) /\
   url <> "" /\ username <> "" /\ password <> "" /\
   exists parsed,
     url_ParseURL H url = inl parsed /\
     (Scheme parsed = "http" \/ Scheme parsed = "https") /\
     UHost parsed <> "").
Proof.
  unfold validateConfiguration.
  destruct (String.eqb_spec url "") as [|Hu]; [left; eexists; reflexivity|].
  destruct (String.eqb_spec username "") as [|Hn]; [left; eexists; reflexivity|].
  destruct (String.eqb_spec password "") as [|Hp]; [left; eexists; reflexivity|].
  destruct (url_ParseURL H url) as [parsed|e]; [|left; eexists; reflexivity].
  destruct (String.eqb_spec (Scheme parsed) "http") as [Hs|Hs]; simpl.
  - destruct (String.eqb_spec (UHost parsed) "") as [|Hh]; [left; eexists; reflexivity|].
    right. split; [reflexivity|]. repeat split; auto. exists parsed. auto.
  - destruct (String.eqb_spec (Scheme parsed) "https") as [Hs'|Hs']; simpl;
      [|left; eexists; reflexivity].
    destruct (String.eqb_spec (UHost parsed) "") as [|Hh]; [left; eexists; reflexivity|].
    right. split; [reflexivity|]. repeat split; auto. exists parsed. auto.
Qed.

(** X19: [validateConfiguration] never panics and changes nothing but
    the log; it returns nil exactly when URL, username and password are
    not empty and the URL parses with scheme http or https and a
    non-empty host. *)
Theorem validateConfiguration_accepts_iff (H : Host) (url username password : string)
    (p : Process) :
  (exists e, fst (validateConfiguration H url username password p) = Val e) /\
  world (snd (validateConfiguration H url username password p)) = world p /\
  PATH (snd (validateConfiguration H url username password p)) = PATH p /\
  fsOps (snd (validateConfiguration H url username password p)) = fsOps p /\
  (fst (validateConfiguration H url username password p) = Val None <->
   url <> "" /\ username <> "" /\ password <> "" /\
   exists parsed,
     url_ParseURL H url = inl parsed /\
     (Scheme parsed = "http" \/ Scheme parsed = "https") /\
     UHost parsed <> "").
Proof.
  destruct (validateConfiguration_run H url username password p)
    as [[m Hm] | (Hr & Hok)].
  - rewrite Hm. simpl. split; [eexists; reflexivity|]. repeat split; try discriminate.
    intros (Hu & Hn & Hp & parsed & Hparse & Hs & Hh). exfalso.
    revert Hm. unfold validateConfiguration.
    destruct (String.eqb_spec url "") as [|_]; [contradiction|].
    destruct (String.eqb_spec username "") as [|_]; [contradiction|].
    destruct (String.eqb_spec password "") as [|_]; [contradiction|].
    rewrite Hparse.
    destruct (String.eqb_spec (UHost parsed) "") as [|_]; [contradiction|].
    destruct Hs as [-> | ->]; simpl; discriminate.
  - rewrite Hr. simpl. split; [eexists; reflexivity|]. repeat split; auto; apply Hok.
Qed.

(** *** The command runner *)



(** [DefaultRunner.Run] returns the process's standard output with a nil
    error, or no output with the wrapped error after logging the process's
    standard error; the value is the one [runLibrespeed] works with. *)
Lemma DefaultRunner_Run_output_xor_error (H : Host) (name : string)
    (args : list string) (p : Process) :
  fst (DefaultRunner_Run H name args p) = Val (DefaultRunner H name args) /\
  match snd (cmd_Run H name args) with
  | None =>
      DefaultRunner H name args = (fst (fst (cmd_Run H name args)), None) /\
      snd (DefaultRunner_Run H name args p) = p
  | Some e =>
      DefaultRunner H name args = ("", Some ("command failed: " ++ e)) /\
      snd (DefaultRunner_Run H name args p)
        = snd (note (NoteErrorOutput (snd (fst (cmd_Run H name args)))) p)
  end.
Proof.
  unfold DefaultRunner_Run, DefaultRunner.
  destruct (cmd_Run H name args) as [[out errout] [e|]]; simpl; repeat split.
Qed.

(** *** Installing the tool *)

Section Extract.

Context (H : Host) (exePath : string).

(** The loop over the archive: it stops at the first file that is the
    tool, and touches the file system only for it. *)
Lemma extractExe_spec (entries : list ZipFile) (p : Process) :
  exists x ops,
    fst (extractExe H exePath entries p) = Val x /\
    onlyFs p (snd (extractExe H exePath entries p)) ops /\
    match x with
    | NoExe => ops = [] /\ forallb (fun f => negb (isExe H f)) entries = true
    | ExtractedExe =>
        exists pre f post content,
          entries = (pre ++ f :: post)%list /\
          forallb (fun f => negb (isExe H f)) pre = true /\
          isExe H f = true /\ ZOpen f = inl content /\
          ops = [Write exePath content; Create exePath]
    | ExtractFailed e =>
        exists pre f post,
          entries = (pre ++ f :: post)%list /\
          forallb (fun f => negb (isExe H f)) pre = true /\
          isExe H f = true /\
          (ops = [] \/ ops = [Create exePath])
    end.
Proof.
  induction entries as [|f rest IH]; simpl.
  - exists NoExe, []. repeat split.
  - change (strings_EqualFold H (ZName f) "librespeed-cli.exe") with (isExe H f).
    destruct (isExe H f) eqn:Hf.
    + destruct (ZOpen f) as [content|e] eqn:Hopen.
      * destruct (os_Create H exePath) as [e|]; runP.
        -- exists (ExtractFailed ("failed to create EXE file: " ++ e)), [].
           split; [reflexivity|]. split; [repeat split|].
           exists [], f, rest. repeat split; auto.
        -- destruct (io_Copy H exePath content) as [e|]; simpl.
           ++ exists (ExtractFailed ("failed to extract EXE: " ++ e)), [Create exePath].
              split; [reflexivity|]. split; [repeat split|].
              exists [], f, rest. repeat split; auto.
           ++ exists ExtractedExe, [Write exePath content; Create exePath].
              split; [reflexivity|]. split; [repeat split|].
              exists [], f, rest, content. repeat split; auto.
      * exists (ExtractFailed ("failed to open file in ZIP: " ++ e)), [].
        split; [reflexivity|]. split; [repeat split|].
        exists [], f, rest. repeat split; auto.
    + destruct IH as (x & ops & Hx & Hfs & Hcase).
      exists x, ops. split; [exact Hx|]. split; [exact Hfs|].
      destruct x as [|e|].
      * destruct Hcase as (pre & f0 & post & content & -> & Hpre & Hm & Ho & Hops).
        exists (f :: pre), f0, post, content. simpl. rewrite Hf.
        repeat split; auto.
      * destruct Hcase as (pre & f0 & post & -> & Hpre & Hm & Hops).
        exists (f :: pre), f0, post. simpl. rewrite Hf.
        repeat split; auto.
      * destruct Hcase as (-> & Hall). split; [reflexivity|]. simpl. exact Hall.
Qed.

End Extract.

Section Ensure.

Context (H : Host) (E : Env).

(** Every way [ensureLibrespeedCLI] can go: found on the PATH, found in
    the install directory, failed while downloading or unpacking, or
    downloaded and unpacked. *)
Lemma ensureLibrespeedCLI_cases (p : Process) :
  exists path err p',
    ensureLibrespeedCLI H E p = (Val (path, err), p') /\
    stderr p' = stderr p /\
    calls (world p') = calls (world p) /\
    sleeps (world p') = sleeps (world p) /\
    draws (world p') = draws (world p) /\
    ((exec_LookPath H "librespeed-cli.exe" = inl path /\ err = None /\
      world p' = world p /\ PATH p' = PATH p /\ fsOps p' = fsOps p)
     \/
     (exists e0 d,
        exec_LookPath H "librespeed-cli.exe" = inr e0 /\
        os_Stat H (installedExe H) = StatInfo d /\
        path = installedExe H /\ err = None /\
        world p' = world p /\
        PATH p' = installDir ++ ";" ++ PATH p /\
        fsOps p' = fsOps p)
     \/
     (exists e0 b m,
        exec_LookPath H "librespeed-cli.exe" = inr e0 /\
        os_Stat H (installedExe H) = StatError b /\
        path = "" /\ err = Some m /\
        PATH p' = PATH p /\
        (requests (world p') = requests (world p) \/
         requests (world p') = theGet :: requests (world p)))
     \/
     (exists e0 b resp entries pre f post content,
        exec_LookPath H "librespeed-cli.exe" = inr e0 /\
        os_Stat H (installedExe H) = StatError b /\
        path = installedExe H /\ err = None /\
        PATH p' = installDir ++ ";" ++ PATH p /\
        requests (world p') = theGet :: requests (world p) /\
        client_Do E (List.length (requests (world p))) theGet = inl resp /\
        StatusCode resp = 200 /\
        zip_OpenReader H (filepath_Join H installDir "librespeed-cli.zip") (RespBody resp)
          = inl entries /\
        entries = (pre ++ f :: post)%list /\
        forallb (fun f => negb (isExe H f)) pre = true /\
        isExe H f = true /\ ZOpen f = inl content /\
        fsOps p'
          = ([Write (installedExe H) content; Create (installedExe H);
              Write (filepath_Join H installDir "librespeed-cli.zip") (RespBody resp);
              Create (filepath_Join H installDir "librespeed-cli.zip");
              MkdirAll installDir] ++ fsOps p)%list)).
Proof.
  unfold ensureLibrespeedCLI. fold (installedExe H).
  unfold bindP at 1. unfold note at 1. cbv beta iota; cbn [world notes stderr PATH fsOps].
  destruct (exec_LookPath H "librespeed-cli.exe") as [found|e0] eqn:Hlook.
  { eexists found, None, _. split; [reflexivity|]. simpl.
    do 4 (split; [reflexivity|]). left. repeat split. }
  destruct (os_Stat H (installedExe H)) as [d|b] eqn:Hstat.
  { eexists (installedExe H), None, _. split; [reflexivity|]. simpl.
    do 4 (split; [reflexivity|]). right. left. exists e0, d. repeat split. }
  unfold bindP at 1. unfold note at 1. cbv beta iota; cbn [world notes stderr PATH fsOps].
  destruct (os_MkdirAll H installDir) as [e|] eqn:Hmk.
  { eexists "", (Some _), _. split; [reflexivity|]. simpl.
    do 4 (split; [reflexivity|]). right. right. left.
    exists e0, b. eexists. repeat split. left. reflexivity. }
  unfold bindP at 1. unfold fsop at 1. cbv beta iota; cbn [world notes stderr PATH fsOps].
  unfold NewRequestWithContext.
  destruct (url_Parse E zipURL) as [e|] eqn:Hurl.
  { eexists "", (Some _), _. split; [reflexivity|]. simpl.
    do 4 (split; [reflexivity|]). right. right. left.
    exists e0, b. eexists. repeat split. left. reflexivity. }
  unfold bindP at 1. unfold note at 1. cbv beta iota; cbn [world notes stderr PATH fsOps].
  unfold bindP at 1. unfold liftM at 1, Do.
  cbn [world requests Method Target Body Header BasicAuth ctxTimeout].
  change {| Method := "GET"; Target := zipURL; Body := ""; Header := [];
            BasicAuth := None; ctxTimeout := 30 * Go.Second;
            clientTimeout := 30 * Go.Second |} with theGet.
  destruct (client_Do E (List.length (requests (world p))) theGet) as [resp|e] eqn:Hdo.
  2:{ eexists "", (Some _), _. split; [reflexivity|]. simpl.
      do 4 (split; [reflexivity|]). right. right. left.
      exists e0, b. eexists. repeat split. right. reflexivity. }
  destruct (Z.eqb_spec (StatusCode resp) 200) as [Hst|Hst]; cbn [negb].
  2:{ eexists "", (Some _), _. split; [reflexivity|]. simpl.
      do 4 (split; [reflexivity|]). right. right. left.
      exists e0, b. eexists. repeat split. right. reflexivity. }
  unfold bindP at 1. unfold note at 1. cbv beta iota; cbn [world notes stderr PATH fsOps].
  destruct (os_Create H (filepath_Join H installDir "librespeed-cli.zip")) as [e|] eqn:Hcr.
  { eexists "", (Some _), _. split; [reflexivity|]. simpl.
    do 4 (split; [reflexivity|]). right. right. left.
    exists e0, b. eexists. repeat split. right. reflexivity. }
  unfold bindP at 1. unfold fsop at 1. cbv beta iota; cbn [world notes stderr PATH fsOps].
  destruct (io_Copy H (filepath_Join H installDir "librespeed-cli.zip") (RespBody resp))
    as [e|] eqn:Hcp.
  { eexists "", (Some _), _. split; [reflexivity|]. simpl.
    do 4 (split; [reflexivity|]). right. right. left.
    exists e0, b. eexists. repeat split. right. reflexivity. }
  unfold bindP at 1. unfold fsop at 1. cbv beta iota; cbn [world notes stderr PATH fsOps].
  unfold bindP at 1. unfold note at 1. cbv beta iota; cbn [world notes stderr PATH fsOps].
  destruct (zip_OpenReader H (filepath_Join H installDir "librespeed-cli.zip") (RespBody resp))
    as [entries|e] eqn:Hzip.
  2:{ eexists "", (Some _), _. split; [reflexivity|]. simpl.
      do 4 (split; [reflexivity|]). right. right. left.
      exists e0, b. eexists. repeat split. right. reflexivity. }
  unfold bindP at 1.
  match goal with |- context [extractExe H (installedExe H) entries ?p5] =>
    destruct (extractExe_spec H (installedExe H) entries p5)
      as (x & ops & Hx & (Hw & Hn & Hse & Hpa & Hfs) & Hcase);
    destruct (extractExe H (installedExe H) entries p5) as [res p6]
  end.
  cbn [fst snd world notes stderr PATH fsOps] in *. subst res.
  destruct x as [|e|].
  - destruct Hcase as (pre & f & post & content & Hent & Hpre & Hm & Ho & ->).
    eexists (installedExe H), None, _. split; [reflexivity|]. simpl.
    rewrite Hw, Hse, Hpa, Hfs. simpl.
    do 4 (split; [reflexivity|]). right. right. right.
    exists e0, b, resp, entries, pre, f, post, content. repeat split; auto.
  - eexists "", (Some _), _. split; [reflexivity|]. simpl.
    rewrite Hw, Hse, Hpa. simpl.
    do 4 (split; [reflexivity|]). right. right. left.
    exists e0, b. eexists. repeat split. right. reflexivity.
  - eexists "", (Some _), _. split; [reflexivity|]. simpl.
    rewrite Hw, Hse, Hpa. simpl.
    do 4 (split; [reflexivity|]). right. right. left.
    exists e0, b. eexists. repeat split. right. reflexivity.
Qed.

End Ensure.

(** X21: when the tool is found on the PATH, [ensureLibrespeedCLI]
    returns the path found and does nothing else: no request, no change
    of the PATH variable, no file-system operation. *)
Theorem ensureLibrespeedCLI_on_path (H : Host) (E : Env) (found : string) (p : Process) :
  exec_LookPath H "librespeed-cli.exe" = inl found ->
  fst (ensureLibrespeedCLI H E p) = Val (found, None) /\
  world (snd (ensureLibrespeedCLI H E p)) = world p /\
  PATH (snd (ensureLibrespeedCLI H E p)) = PATH p /\
  fsOps (snd (ensureLibrespeedCLI H E p)) = fsOps p.
Proof.
  intros Hlook. unfold ensureLibrespeedCLI. runP. rewrite Hlook. repeat split.
Qed.

Lemma ensureLibrespeedCLI_on_path_witness :
  fst (ensureLibrespeedCLI Double.hostOnPath Mock.env200 Process0)
    = Val ("/usr/bin/librespeed-cli.exe", None) /\
  world (snd (ensureLibrespeedCLI Double.hostOnPath Mock.env200 Process0)) = world Process0 /\
  PATH (snd (ensureLibrespeedCLI Double.hostOnPath Mock.env200 Process0)) = PATH Process0 /\
  fsOps (snd (ensureLibrespeedCLI Double.hostOnPath Mock.env200 Process0)) = fsOps Process0.
Proof.
  apply (ensureLibrespeedCLI_on_path Double.hostOnPath Mock.env200
           "/usr/bin/librespeed-cli.exe" Process0).
  reflexivity.
Defined.

(** X22: [ensureLibrespeedCLI] never panics, takes no sleep and makes at
    most one request, the GET of the archive; when it fails it returns
    the empty path and leaves the PATH variable alone; when it succeeds
    the path is the one found on the PATH, or the install path with the
    install directory put in front of the PATH variable. *)
Theorem ensureLibrespeedCLI_outcomes (H : Host) (E : Env) (p : Process) :
  exists path err p',
    ensureLibrespeedCLI H E p = (Val (path, err), p') /\
    sleeps (world p') = sleeps (world p) /\
    (requests (world p') = requests (world p) \/
     requests (world p') = theGet :: requests (world p)) /\
    match err with
    | Some _ => path = "" /\ PATH p' = PATH p
    | None =>
        (exec_LookPath H "librespeed-cli.exe" = inl path /\ PATH p' = PATH p /\
         requests (world p') = requests (world p)) \/
        (path = installedExe H /\ PATH p' = installDir ++ ";" ++ PATH p)
    end.
Proof.
  destruct (ensureLibrespeedCLI_cases H E p)
    as (path & err & p' & Hrun & _ & _ & Hs & _ & Hcase).
  exists path, err, p'. split; [exact Hrun|]. split; [exact Hs|].
  destruct Hcase as [(Hl & -> & Hw & Hp & _)
                    | [(e0 & d & _ & _ & -> & -> & Hw & Hp & _)
                    | [(e0 & b & m & _ & _ & -> & -> & Hp & Hq)
                    | (e0 & b & resp & entries & pre & f & post & content
                       & _ & _ & -> & -> & Hp & Hq & _)]]].
  - rewrite Hw. split; [left; reflexivity|]. left. auto.
  - rewrite Hw. split; [left; reflexivity|]. right. auto.
  - split; [exact Hq|]. auto.
  - split; [right; exact Hq|]. right. auto.
Qed.

(** X23: the download is accepted only with status 200.  When the tool is
    neither on the PATH nor installed and the archive request is answered
    with another status (a 204, say, which a delivery attempt would take
    for success), [ensureLibrespeedCLI] fails with that status; only the
    install directory was made, and the PATH variable is unchanged. *)
Theorem ensureLibrespeedCLI_download_status (H : Host) (E : Env) (p : Process)
    (e0 : string) (b : bool) (resp : HttpResponse) :
  exec_LookPath H "librespeed-cli.exe" = inr e0 ->
  os_Stat H (installedExe H) = StatError b ->
  os_MkdirAll H installDir = None ->
  url_Parse E zipURL = None ->
  client_Do E (List.length (requests (world p))) theGet = inl resp ->
  StatusCode resp <> 200 ->
  fst (ensureLibrespeedCLI H E p)
    = Val ("", Some ("download failed with status: " ++ Status resp)) /\
  requests (world (snd (ensureLibrespeedCLI H E p))) = theGet :: requests (world p) /\
  fsOps (snd (ensureLibrespeedCLI H E p)) = MkdirAll installDir :: fsOps p /\
  PATH (snd (ensureLibrespeedCLI H E p)) = PATH p.
Proof.
  intros Hlook Hstat Hmk Hurl Hdo Hst.
  unfold ensureLibrespeedCLI. fold (installedExe H).
  rewrite Hlook, Hstat, Hmk. unfold NewRequestWithContext. rewrite Hurl.
  runP. unfold Do. simpl.
  change {| Method := "GET"; Target := zipURL; Body := ""; Header := [];
            BasicAuth := None; ctxTimeout := 30000000000;
            clientTimeout := 30000000000 |} with theGet.
  rewrite Hdo. destruct (Z.eqb_spec (StatusCode resp) 200) as [|_]; [contradiction|].
  simpl. repeat split.
Qed.

Lemma ensureLibrespeedCLI_download_status_witness :
  fst (ensureLibrespeedCLI Double.hostBare
         (Mock.env "" None (Mock.server 204 "204 No Content" "")) Process0)
    = Val ("", Some ("download failed with status: " ++ "204 No Content")) /\
  requests (world (snd (ensureLibrespeedCLI Double.hostBare
                          (Mock.env "" None (Mock.server 204 "204 No Content" "")) Process0)))
    = theGet :: requests (world Process0) /\
  fsOps (snd (ensureLibrespeedCLI Double.hostBare
                (Mock.env "" None (Mock.server 204 "204 No Content" "")) Process0))
    = MkdirAll installDir :: fsOps Process0 /\
  PATH (snd (ensureLibrespeedCLI Double.hostBare
               (Mock.env "" None (Mock.server 204 "204 No Content" "")) Process0))
    = PATH Process0.
Proof.
  apply (ensureLibrespeedCLI_download_status Double.hostBare
           (Mock.env "" None (Mock.server 204 "204 No Content" "")) Process0
           "not found" true
           {| StatusCode := 204; Status := "204 No Content"; RespBody := "" |}).
  - reflexivity.
  - reflexivity.
  - reflexivity.
  - reflexivity.
  - reflexivity.
  - discriminate.
Defined.

(** X24: when [ensureLibrespeedCLI] succeeds by downloading, the archive
    request was answered with status 200, the answer's body was saved as
    the archive, and the file installed is the first file of the archive
    whose name folds to [librespeed-cli.exe]: later files of that name
    are not looked at. *)
Theorem ensureLibrespeedCLI_installs_first_match (H : Host) (E : Env)
    (p p' : Process) (path e0 : string) (b : bool) :
  ensureLibrespeedCLI H E p = (Val (path, None), p') ->
  exec_LookPath H "librespeed-cli.exe" = inr e0 ->
  os_Stat H (installedExe H) = StatError b ->
  exists resp entries pre f post content,
    path = installedExe H /\
    client_Do E (List.length (requests (world p))) theGet = inl resp /\
    StatusCode resp = 200 /\
    zip_OpenReader H (filepath_Join H installDir "librespeed-cli.zip") (RespBody resp)
      = inl entries /\
    entries = (pre ++ f :: post)%list /\
    forallb (fun f => negb (isExe H f)) pre = true /\
    isExe H f = true /\ ZOpen f = inl content /\
    fsOps p'
      = ([Write (installedExe H) content; Create (installedExe H);
          Write (filepath_Join H installDir "librespeed-cli.zip") (RespBody resp);
          Create (filepath_Join H installDir "librespeed-cli.zip");
          MkdirAll installDir] ++ fsOps p)%list /\
    PATH p' = installDir ++ ";" ++ PATH p.
Proof.
  intros Hrun Hlook Hstat.
  destruct (ensureLibrespeedCLI_cases H E p)
    as (path0 & err0 & p0 & Hrun0 & _ & _ & _ & _ & Hcase).
  rewrite Hrun in Hrun0. inversion Hrun0; subst path0 err0 p0.
  destruct Hcase as [(Hl & _)
                    | [(e1 & d & _ & Hs & _)
                    | [(e1 & b1 & m & _ & _ & _ & Hm & _)
                    | (e1 & b1 & resp & entries & pre & f & post & content
                       & _ & _ & Hp & _ & HP & _ & Hdo & Hst & Hzip & Hent & Hpre & Hf & Ho & Hfs)]]];
    try congruence.
  exists resp, entries, pre, f, post, content. repeat split; auto.
Qed.

Lemma ensureLibrespeedCLI_installs_first_match_witness :
  exists resp entries pre f post content,
    installedExe Double.hostBare = installedExe Double.hostBare /\
    client_Do Mock.env200 (List.length (requests (world Process0))) theGet = inl resp /\
    StatusCode resp = 200 /\
    zip_OpenReader Double.hostBare
      (filepath_Join Double.hostBare installDir "librespeed-cli.zip") (RespBody resp)
      = inl entries /\
    entries = (pre ++ f :: post)%list /\
    forallb (fun f => negb (isExe Double.hostBare f)) pre = true /\
    isExe Double.hostBare f = true /\ ZOpen f = inl content /\
    fsOps (snd (ensureLibrespeedCLI Double.hostBare Mock.env200 Process0))
      = ([Write (installedExe Double.hostBare) content;
          Create (installedExe Double.hostBare);
          Write (filepath_Join Double.hostBare installDir "librespeed-cli.zip") (RespBody resp);
          Create (filepath_Join Double.hostBare installDir "librespeed-cli.zip");
          MkdirAll installDir] ++ fsOps Process0)%list /\
    PATH (snd (ensureLibrespeedCLI Double.hostBare Mock.env200 Process0))
      = installDir ++ ";" ++ PATH Process0.
Proof.
  apply (ensureLibrespeedCLI_installs_first_match Double.hostBare Mock.env200 Process0
           (snd (ensureLibrespeedCLI Double.hostBare Mock.env200 Process0))
           (installedExe Double.hostBare) "not found" true).
  - vm_compute. reflexivity.
  - reflexivity.
  - reflexivity.
Defined.

(** *** The whole run *)


Lemma runLibrespeed_cases (E : Env) (cliPath localJSONPath : string)
    (serverID : option Z) (w : World) :
  exists out w',
    runLibrespeed E cliPath localJSONPath serverID w = (Val out, w') /\
    quiet w w' /\
    ((exists result toolArgs output more,
        out = (Some result, None) /\
        Run E cliPath toolArgs = (output, None) /\
        json_Unmarshal E output = inl (result :: more)) \/
     (exists m, out = (None, Some m))).
Proof.
  unfold runLibrespeed. run.
  match goal with |- context [Run E cliPath ?a] =>
    destruct (Run E cliPath a) as [output [e|]] eqn:Hrun
  end; simpl.
  - eexists _, _. split; [reflexivity|]. split; [repeat split|]. right. eexists. reflexivity.
  - destruct (json_Unmarshal E output) as [[|result rest]|e] eqn:Hdec; simpl;
      (eexists _, _; split; [reflexivity|]; split; [repeat split|]);
      [right; eexists; reflexivity | | right; eexists; reflexivity].
    left. eexists result, _, output, rest.
    split; [reflexivity|]. split; [exact Hrun | exact Hdec].
Qed.

(** What the default runner returned without error is what the tool's
    process printed. *)
Lemma DefaultRunner_output (H : Host) (name : string) (toolArgs : list string)
    (output : string) :
  DefaultRunner H name toolArgs = (output, None) ->
  exists errout, cmd_Run H name toolArgs = (output, errout, None).
Proof.
  unfold DefaultRunner.
  destruct (cmd_Run H name toolArgs) as [[out errout] [e|]]; intros Heq;
    [discriminate|].
  inversion Heq. exists errout. reflexivity.
Qed.

(** The wrapper on a batch with samples and at most 63 retries: it
    returns, within its bounds, and nil only after a delivery. *)
Lemma sendToRemoteWriteWithRetry_run (E : Env) (url username password : string)
    (series : list prompb.TimeSeries) (maxRetries : Z) (w : World) :
  maxRetries <= 63 ->
  forallb hasSample series = true ->
  exists e w',
    sendToRemoteWriteWithRetry E url username password series maxRetries w = (Val e, w') /\
    (calls w' <= calls w + Z.to_nat (maxRetries + 1))%nat /\
    (List.length (sleeps w') <= List.length (sleeps w) + Z.to_nat maxRetries)%nat /\
    (List.length (requests w') <= List.length (requests w) + Z.to_nat (maxRetries + 1))%nat /\
    (e = None ->
     exists data resp rest,
       sendable E url series data /\
       requests w' = thePost E url username password data :: rest /\
       client_Do E (List.length rest) (thePost E url username password data) = inl resp /\
       StatusCode resp < 300).
Proof.
  intros HN Hs.
  destruct (retryLoop_bounded E url username password series maxRetries Hs
              (Z.to_nat (maxRetries + 1)) 0 None w)
    as (x & w' & ds & k & Hloop & Hc & Hk & _ & Hsl & Hl & _ & _ & Hq); [lia | lia |].
  change (0 =? 0) with true in Hl. cbv iota in Hl.
  assert (Hsleeps : (List.length (sleeps w') <= List.length (sleeps w) + Z.to_nat maxRetries)%nat)
    by (rewrite Hsl, length_app, Hl; lia).
  unfold sendToRemoteWriteWithRetry, bind. rewrite Hloop.
  destruct x as [|lastErr]; unfold ret.
  - exists None, w'. split; [reflexivity|]. repeat split; try lia. intros _.
    destruct (retryLoop_returnNil_inv E url username password series maxRetries
                _ _ _ _ _ Hloop) as (w0 & Hnil & Hq0).
    destruct (sendToRemoteWrite_nil_inv E url username password series w0 Hnil)
      as (data & resp & Hok & Hq1 & Hdo & Hlt).
    exists data, resp, (requests w0).
    split; [exact Hok|]. split; [rewrite Hq0; exact Hq1|]. split; assumption.
  - eexists (Some _), w'. split; [reflexivity|]. repeat split; try lia. discriminate.
Qed.

Lemma validateLogFilePath_panic_inv (H : Host) (path msg : string) :
  validateLogFilePath H path = Panic msg ->
  msg = "runtime error: invalid memory address or nil pointer dereference" /\
  path <> "" /\ os_Stat H (filepath_Dir H path) = StatError false.
Proof.
  unfold validateLogFilePath.
  destruct (String.eqb_spec path "") as [|Hne]; [discriminate|].
  destruct (os_Stat H (filepath_Dir H path)) as [[|]|[|]]; simpl; intros Hp;
    try discriminate.
  inversion Hp. repeat split; auto.
Qed.

(** When [flag.Parse()] ends the program, nothing else happens: the
    usage or the error report goes to standard error, and the status is
    0 for [-h] and 2 for a malformed command line. *)
Lemma main_parse_exit (H : Host) (E : Env) (args : list string) (p : Process) :
  forall text code,
    (flag_Parse H declaredFlags args = HelpRequested text /\ code = 0) \/
    (flag_Parse H declaredFlags args = BadFlag text /\ code = 2) ->
    main H E args p
      = (Val code,
         {| world := world p; notes := notes p; stderr := text :: stderr p;
            PATH := PATH p; fsOps := fsOps p |}).
Proof.
  intros text code [[Hparse ->] | [Hparse ->]]; unfold main; rewrite Hparse; reflexivity.
Qed.

(** Every way a run of [main] can go once the flags are parsed: the panic
    of the log-path check, an exit before anything is run, or an exit
    after the tool was looked for. *)
Lemma main_cases (H : Host) (E : Env) (args : list string) (f : Flags) (p : Process) :
  flag_Parse H declaredFlags args = FlagsSet f ->
  exists r p',
    main H E args p = (r, p') /\
    ((r = Panic "runtime error: invalid memory address or nil pointer dereference" /\
      flag_logfile f <> "" /\
      os_Stat H (filepath_Dir H (flag_logfile f)) = StatError false /\
      world p' = world p /\ PATH p' = PATH p /\ fsOps p' = fsOps p /\
      notes p' = opening f p /\ stderr p' = stderr p)
     \/
     (r = Val 1 /\
      world p' = world p /\ PATH p' = PATH p /\
      exists n line,
        notes p' = n :: opening f p /\ stderr p' = line :: stderr p /\
        ((exists e, validateLogFilePath H (flag_logfile f) = Val (Some e) /\
                    n = NoteInvalidLogPath e /\ fsOps p' = fsOps p) \/
         (exists e, os_OpenFile H (flag_logfile f) = Some e /\
                    n = NoteOpenLogFailed e /\ fsOps p' = fsOps p) \/
         (exists e, ~ validConfiguration H f /\
                    n = NoteConfigInvalid e /\
                    fsOps p' = OpenAppend (flag_logfile f) :: fsOps p)))
     \/
     (exists code,
        r = Val code /\
        (code = 0 \/ code = 1) /\
        validateLogFilePath H (flag_logfile f) = Val None /\
        os_OpenFile H (flag_logfile f) = None /\
        validConfiguration H f /\
        (calls (world p') <= calls (world p) + 4)%nat /\
        (List.length (sleeps (world p')) <= List.length (sleeps (world p)) + 3)%nat /\
        (List.length (requests (world p')) <= List.length (requests (world p)) + 5)%nat /\
        (code = 0 -> delivered H E f (world p')))).
Proof.
  intros Hparse. unfold main. rewrite Hparse. unfold opening.
  do 3 (unfold bindP at 1; unfold note at 1; cbv beta iota;
        cbn [world notes stderr PATH fsOps]).
  unfold bindP at 1. unfold liftRes at 1. cbv beta iota.
  destruct (validateLogFilePath H (flag_logfile f)) as [[e|]|msg] eqn:Hv.
  { runP. eexists _, _. split; [reflexivity|]. right. left. simpl.
    do 3 (split; [reflexivity|]). eexists _, _.
    do 2 (split; [reflexivity|]). left. exists e. repeat split. }
  2:{ destruct (validateLogFilePath_panic_inv H _ _ Hv) as (-> & Hne & Hs).
      eexists _, _. split; [reflexivity|]. left. simpl. repeat split; auto. }
  destruct (os_OpenFile H (flag_logfile f)) as [e|] eqn:Hopen.
  { runP. eexists _, _. split; [reflexivity|]. right. left. simpl.
    do 3 (split; [reflexivity|]). eexists _, _.
    do 2 (split; [reflexivity|]). right. left. exists e. repeat split. }
  unfold bindP at 1. unfold fsop at 1. cbv beta iota.
  cbn [world notes stderr PATH fsOps].
  unfold bindP at 1.
  match goal with |- context [validateConfiguration H ?u ?n ?pw ?q] =>
    destruct (validateConfiguration_run H u n pw q) as [[m Hm] | (Hr & Hok)]
  end.
  { rewrite Hm. runP. eexists _, _. split; [reflexivity|]. right. left. simpl.
    do 3 (split; [reflexivity|]). eexists _, _.
    do 2 (split; [reflexivity|]). right. right. exists m.
    split; [|split; reflexivity].
    intros (Hu & Hn & Hp & parsed & Hparsed & Hs & Hh).
    revert Hm. unfold validateConfiguration.
    destruct (String.eqb_spec (flag_url f) "") as [|_]; [contradiction|].
    destruct (String.eqb_spec (flag_username f) "") as [|_]; [contradiction|].
    destruct (String.eqb_spec (flag_password f) "") as [|_]; [contradiction|].
    rewrite Hparsed.
    destruct (String.eqb_spec (UHost parsed) "") as [|_]; [contradiction|].
    destruct Hs as [-> | ->]; simpl; discriminate. }
  rewrite Hr.
  match goal with |- context [snd (note ?n ?q)] =>
    change (snd (note n q))
      with {| world := world q; notes := n :: notes q; stderr := stderr q;
              PATH := PATH q; fsOps := fsOps q |}
  end.
  cbv beta iota. cbn [world notes stderr PATH fsOps].
  unfold bindP at 1.
  match goal with |- context [ensureLibrespeedCLI H E ?q] =>
    destruct (ensureLibrespeedCLI_cases H E q)
      as (path & err & p1 & Hrun & _ & Hc1 & Hs1 & _ & Hcase)
  end.
  rewrite Hrun. cbn [fst snd world] in *. cbv beta iota.
  assert (Hq1 : (List.length (requests (world p1)) <= List.length (requests (world p)) + 1)%nat).
  { destruct Hcase as [(_ & _ & Hw & _)
                      | [(e0 & d & _ & _ & _ & _ & Hw & _)
                      | [(e0 & b & m & _ & _ & _ & _ & _ & [Hq | Hq])
                      | (e0 & b & resp & entries & pre & f0 & post & content
                         & _ & _ & _ & _ & _ & Hq & _)]]];
      rewrite ?Hw, ?Hq; simpl; lia. }
  clear Hcase Hrun.
  destruct err as [e|].
  { runP. eexists _, _. split; [reflexivity|]. right. right. exists 1. simpl.
    split; [reflexivity|]. split; [right; reflexivity|].
    split; [reflexivity|]. split; [reflexivity|]. split; [exact Hok|].
    rewrite Hc1, Hs1.
    split; [lia|]. split; [lia|]. split; [lia|]. discriminate. }
  unfold bindP at 1. unfold liftM at 1.
  match goal with |- context [runLibrespeed ?E' ?c ?l ?s ?w0] =>
    destruct (runLibrespeed_cases E' c l s w0)
      as (out & w2 & Hrun2 & (Hq2 & Hs2 & _ & Hc2) & Hshape)
  end.
  rewrite Hrun2. cbv beta iota. clear Hrun2.
  destruct Hshape as [(result & toolArgs & output & more & -> & Htool & Hdec) | [m ->]];
    cbn [fst snd].
  2:{ runP. eexists _, _. split; [reflexivity|]. right. right. exists 1. simpl.
      split; [reflexivity|]. split; [right; reflexivity|].
      split; [reflexivity|]. split; [reflexivity|]. split; [exact Hok|].
      rewrite Hq2, Hs2, Hc2, Hc1, Hs1.
      split; [lia|]. split; [lia|]. split; [lia|]. discriminate. }
  cbn [Run json_Unmarshal withRunner] in Htool, Hdec.
  destruct (DefaultRunner_output H _ _ _ Htool) as [errout Hcmd]. clear Htool.
  unfold bindP at 1.
  assert (Hhost : exists p3,
    (match snd (os_Hostname H) with
     | Some e => bindP (note (NoteHostnameWarning e)) (fun _ => retP "unknown")
     | None => retP (fst (os_Hostname H))
     end)
      {| world := w2; notes := notes p1; stderr := stderr p1;
         PATH := PATH p1; fsOps := fsOps p1 |} = (Val (instanceName H), p3) /\
    world p3 = w2).
  { unfold instanceName. destruct (snd (os_Hostname H)); runP; eexists; split; reflexivity. }
  destruct Hhost as (p3 & Hh & Hw3). rewrite Hh. cbv beta iota. clear Hh.
  unfold bindP at 1. unfold note at 1. cbv beta iota.
  cbn [world notes stderr PATH fsOps].
  unfold bindP at 1. unfold liftM at 1. cbn [world].
  destruct (sendToRemoteWriteWithRetry_run E (flag_url f) (flag_username f) (flag_password f)
              (buildSeries result (time_Now H) (instanceName H)) 3 (world p3))
    as (e & w4 & Hrun4 & Hc4 & Hs4 & Hq4 & Hdel); [lia | reflexivity |].
  rewrite Hrun4. cbv beta iota. clear Hrun4. rewrite Hw3 in *.
  change (Z.to_nat (3 + 1)) with 4%nat in *. change (Z.to_nat 3) with 3%nat in *.
  rewrite Hc2, Hc1 in Hc4. rewrite Hs2, Hs1 in Hs4. rewrite Hq2 in Hq4.
  destruct e as [e|].
  - runP. eexists _, _. split; [reflexivity|]. right. right. exists 1. simpl.
    split; [reflexivity|]. split; [right; reflexivity|].
    split; [reflexivity|]. split; [reflexivity|]. split; [exact Hok|].
    split; [lia|]. split; [lia|]. split; [lia|]. discriminate.
  - runP. eexists _, _. split; [reflexivity|]. right. right. exists 0. simpl.
    split; [reflexivity|]. split; [left; reflexivity|].
    split; [reflexivity|]. split; [reflexivity|]. split; [exact Hok|].
    split; [lia|]. split; [lia|]. split; [lia|]. intros _.
    destruct (Hdel eq_refl) as (data & resp & rest & Hsend & Hreq & Hdo & Hlt).
    exists path, toolArgs, output, errout, result, more, data, resp, rest.
    split; [exact Hcmd|]. split; [exact Hdec|]. split; [exact Hsend|].
    split; [exact Hreq|]. split; assumption.
Qed.



(** X26: when the flags parse and [validateConfiguration] would reject
    them (an empty URL, username or password, a URL that does not parse,
    a scheme other than http and https, no host), [main] does not look
    for the tool, run it or contact the endpoint: the world of the
    pipeline and the PATH variable are as before, the only file-system
    operation that may have been added is the opening of the log file,
    and the only log lines added are the three opening ones and, before
    exit status 1, one line that names the failed check.  It ends with
    exit status 1, or in the panic of the log-path check. *)
Theorem main_rejects_invalid_configuration (H : Host) (E : Env) (args : list string)
    (f : Flags) (p : Process) :
  flag_Parse H declaredFlags args = FlagsSet f ->
  ~ validConfiguration H f ->
  exists r p',
    main H E args p = (r, p') /\
    world p' = world p /\ PATH p' = PATH p /\
    (fsOps p' = fsOps p \/ fsOps p' = OpenAppend (flag_logfile f) :: fsOps p) /\
    ((r = Panic "runtime error: invalid memory address or nil pointer dereference" /\
      notes p' = opening f p /\ stderr p' = stderr p) \/
     (r = Val 1 /\
      exists n line,
        notes p' = n :: opening f p /\ stderr p' = line :: stderr p /\
        ((exists e, n = NoteInvalidLogPath e) \/
         (exists e, n = NoteOpenLogFailed e) \/
         (exists e, n = NoteConfigInvalid e)))).
Proof.
  intros Hparse Hbad.
  destruct (main_cases H E args f p Hparse)
    as (r & p0 & Hrun & [(-> & _ & _ & Hw & Hp & Hfs & Hn & He)
       | [(-> & Hw & Hp & n & line & Hn & He & Hwhy)
       | (code & -> & _ & _ & _ & Hok & _)]]);
    [| | contradiction]; eexists _, p0; (split; [exact Hrun|]);
    (split; [exact Hw|]); (split; [exact Hp|]).
  - split; [left; exact Hfs|]. left. repeat split; assumption.
  - split.
    + destruct Hwhy as [(e & _ & _ & Hfs) | [(e & _ & _ & Hfs) | (e & _ & _ & Hfs)]];
        [left | left | right]; exact Hfs.
    + right. split; [reflexivity|]. exists n, line.
      split; [exact Hn|]. split; [exact He|].
      destruct Hwhy as [(e & _ & -> & _) | [(e & _ & -> & _) | (e & _ & -> & _)]];
        [left | right; left | right; right]; exists e; reflexivity.
Qed.

Lemma main_rejects_invalid_configuration_witness :
  exists r p',
    main Double.hostOnPath Mock.env200 Double.argsNoUser Process0 = (r, p') /\
    world p' = world Process0 /\ PATH p' = PATH Process0 /\
    (fsOps p' = fsOps Process0 \/
     fsOps p' = OpenAppend (flag_logfile (Double.flagsNoUser)) :: fsOps Process0) /\
    ((r = Panic "runtime error: invalid memory address or nil pointer dereference" /\
      notes p' = opening Double.flagsNoUser Process0 /\ stderr p' = stderr Process0) \/
     (r = Val 1 /\
      exists n line,
        notes p' = n :: opening Double.flagsNoUser Process0 /\
        stderr p' = line :: stderr Process0 /\
        ((exists e, n = NoteInvalidLogPath e) \/
         (exists e, n = NoteOpenLogFailed e) \/
         (exists e, n = NoteConfigInvalid e)))).
Proof.
  apply (main_rejects_invalid_configuration Double.hostOnPath Mock.env200
           Double.argsNoUser Double.flagsNoUser Process0).
  - reflexivity.
  - intros (_ & Hn & _). apply Hn. reflexivity.
Defined.

(** X27: unless the flags parse and [os.Stat] of the log file's directory
    fails with an error other than not-exist, [main] never panics: it
    ends with exit status 0, 1 or 2, the last exactly when [flag.Parse()]
    found the command line malformed, after at most four delivery
    attempts, three sleeps and five requests (the download and four
    POSTs). *)
Theorem main_exits_within_bounds (H : Host) (E : Env) (args : list string) (p : Process) :
  (forall f, flag_Parse H declaredFlags args = FlagsSet f ->
             os_Stat H (filepath_Dir H (flag_logfile f)) <> StatError false) ->
  exists code p',
    main H E args p = (Val code, p') /\
    (code = 0 \/ code = 1 \/ code = 2) /\
    (code = 2 <-> exists report, flag_Parse H declaredFlags args = BadFlag report) /\
    (calls (world p') <= calls (world p) + 4)%nat /\
    (List.length (sleeps (world p')) <= List.length (sleeps (world p)) + 3)%nat /\
    (List.length (requests (world p')) <= List.length (requests (world p)) + 5)%nat.
Proof.
  intros Hstat.
  destruct (flag_Parse H declaredFlags args) as [f|usage|report] eqn:Hparse.
  - specialize (Hstat f eq_refl).
    assert (Hno : forall code, code = 0 \/ code = 1 ->
              (code = 2 <-> exists report, FlagsSet f = BadFlag report)).
    { intros code Hcode. split; [lia | intros [report Hr]; discriminate]. }
    destruct (main_cases H E args f p Hparse)
      as (r & p0 & Hrun & [(_ & _ & Hs & _)
         | [(-> & Hw & _)
         | (code & -> & Hcode & _ & _ & _ & Hc & Hs & Hq & _)]]).
    + contradiction.
    + exists 1, p0. split; [exact Hrun|]. split; [right; left; reflexivity|].
      split; [apply Hno; right; reflexivity|].
      rewrite Hw. repeat split; lia.
    + exists code, p0. split; [exact Hrun|]. split; [lia|].
      split; [apply Hno; exact Hcode|]. repeat split; assumption.
  - eexists 0, _. split.
    + apply (main_parse_exit H E args p usage 0). left. split; [exact Hparse | reflexivity].
    + split; [left; reflexivity|].
      split; [split; [discriminate | intros [report Hr]; discriminate]|].
      simpl. repeat split; lia.
  - eexists 2, _. split.
    + apply (main_parse_exit H E args p report 2). right. split; [exact Hparse | reflexivity].
    + split; [right; right; reflexivity|].
      split; [split; [intros _; exists report; reflexivity | reflexivity]|].
      simpl. repeat split; lia.
Qed.

Lemma main_exits_within_bounds_witness :
  exists code p',
    main Double.hostBare Mock.env500 Double.args Process0 = (Val code, p') /\
    (code = 0 \/ code = 1 \/ code = 2) /\
    (code = 2 <->
     exists report, flag_Parse Double.hostBare declaredFlags Double.args = BadFlag report) /\
    (calls (world p') <= calls (world Process0) + 4)%nat /\
    (List.length (sleeps (world p')) <= List.length (sleeps (world Process0)) + 3)%nat /\
    (List.length (requests (world p')) <= List.length (requests (world Process0)) + 5)%nat.
Proof.
  apply (main_exits_within_bounds Double.hostBare Mock.env500 Double.args Process0).
  intros f _ Hstat. vm_compute in Hstat. discriminate.
Defined.

(** The command lines that end in [flag.Parse()]: [-h] gives status 0 and
    an unknown flag status 2, with nothing but the text on standard
    error. *)
Example main_help_and_unknown_flag :
  main Double.hostBare Mock.env200 ["-h"] Process0
    = (Val 0, {| world := World0; notes := []; stderr := ["Usage of librespeed-exporter:"];
                 PATH := ""; fsOps := [] |}) /\
  main Double.hostBare Mock.env200 ["-bogus"] Process0
    = (Val 2, {| world := World0; notes := [];
                 stderr := ["flag provided but not defined: -bogus"];
                 PATH := ""; fsOps := [] |}).
Proof. split; reflexivity. Qed.

(** The command line of the doubles sets the three required flags and
    leaves the others at their declared defaults. *)
Example parse_required_flags :
  flag_Parse Double.hostOnPath declaredFlags Double.args = FlagsSet Double.flags /\
  flag_logfile Double.flags = flag_logfile declaredFlags /\
  flag_local_json Double.flags = flag_local_json declaredFlags /\
  flag_server_id Double.flags = flag_server_id declaredFlags.
Proof. repeat split. Qed.
